(** * Model factory and selection policy

    A shallow embedding of [notebook/model_factory_sample.py]: the sample
    configuration, the model factory ([ModelFactory]) with its grid-search
    runner and the best-model selection, and of the regression-model
    comparison its expressions and the call the compiler refuses.

    Python floats are IEEE-754 binary64 numbers; they are modelled with the
    executable specification of the Standard Library ([SpecFloat], precision
    53, maximal exponent 1024, rounding to nearest even).  Exceptions are
    values of an error monad, [for] loops are folds that can stop early, and
    the third-party toolkit (importlib, the estimators, the search routine and
    the metrics) is an interface the development is parametrised by. *)

From Stdlib Require Import ZArith List String Bool Lia.
From Stdlib Require Import SpecFloat.
From Stdlib Require Import Reals Lra.
Import ListNotations.

Local Open Scope Z_scope.
Local Open Scope string_scope.
Local Open Scope list_scope.

(** ** Python floats *)

Definition float : Type := spec_float.

Module PyFloat.

Definition prec : Z := 53.
Definition emax : Z := 1024.

(** [float(z)] for a Python int [z]. *)
Definition of_int (z : Z) : float := binary_normalize prec emax z 0 false.

(** The decimal literal [digits * 10^(-places)], e.g. [lit 65 2] for [0.65].
    Both operands are exact binary64 numbers for the literals used here, so
    the correctly rounded quotient is the float Python reads the literal as. *)
Definition lit (digits : Z) (places : nat) : float :=
  SFdiv prec emax (of_int digits) (of_int (10 ^ Z.of_nat places)).

Definition add : float -> float -> float := SFadd prec emax.
Definition sub : float -> float -> float := SFsub prec emax.
Definition mul : float -> float -> float := SFmul prec emax.
Definition abs : float -> float := SFabs.

(** [a < b] and [a >= b]; both are false when an operand is NaN. *)
Definition lt (a b : float) : bool := SFltb a b.
Definition ge (a b : float) : bool := SFleb b a.
Definition le (a b : float) : bool := SFleb a b.
Definition eqb (a b : float) : bool := SFeqb a b.

Definition zero : float := S754_zero false.

(** Neither an infinity nor NaN. *)
Definition is_finite (x : float) : bool :=
  match x with
  | S754_zero _ | S754_finite _ _ _ => true
  | S754_infinity _ | S754_nan => false
  end.

(** [-x] *)
Definition neg : float -> float := SFopp.

End PyFloat.

(** ** The real number a float stands for

    The float arithmetic of the program is compared with the arithmetic on
    real numbers that the design describes. *)

(** The value of a float. The infinities and NaN stand for no real number;
    they are given 0 and excluded where it matters. *)
Definition F2R (x : float) : R :=
  match x with
  | S754_finite s m e => ((if s then -1 else 1) * IZR (Zpos m) * powerRZ 2 e)%R
  | _ => 0%R
  end.

(** A normal float [m * 2^e] or [- m * 2^e] with a mantissa of 53 bits and
    [2^-510 <= m * 2^e < 2^510]: far from overflow and underflow. Every
    accuracy between -1 and 1 that is neither zero nor tiny is one. *)
Definition ordinary (x : float) : bool :=
  match x with
  | S754_finite _ m e =>
      (2 ^ 52 <=? Zpos m)%Z && (Zpos m <? 2 ^ 53)%Z
      && (-562 <=? e)%Z && (e <=? 457)%Z
  | _ => false
  end.

(** The relative error of one rounding to nearest is at most [2^-53]. *)
Definition unit_roundoff : R := (/ IZR (2 ^ 53))%R.

(** The positive number [v] is the positive number [x] rounded, stated
    relative to [v]. *)
Definition near (v x : R) : Prop :=
  (v * (1 - unit_roundoff) <= x <= v * (1 + unit_roundoff))%R.

(** The sign and the magnitude of a finite float. *)
Definition sgn (s : bool) : R := if s then (-1)%R else 1%R.

Definition val (m : positive) (e : Z) : R := (IZR (Zpos m) * powerRZ 2 e)%R.

Definition normal_mantissa (m : positive) : Prop := 2 ^ 52 <= Zpos m < 2 ^ 53.

(** What the shift record [mrs] of [SpecFloat] knows of the fraction [N / D]:
    its mantissa is the quotient, its round bit says whether the remainder [F]
    is at least half of [D], its sticky bit whether [F] is neither 0 nor that
    half. *)
Definition inb (N D : Z) (mrs : shr_record) : Prop :=
  exists F, N = shr_m mrs * D + F /\ 0 <= F < D
            /\ shr_r mrs = (D <=? 2 * F)%Z
            /\ shr_s mrs = negb (F =? 0)%Z && negb (2 * F =? D)%Z.

(** The integer, in units of [2^(min ea eb)], that the sum of two finite
    floats stands for. *)
Definition aligned_sum (sa sb : bool) (ma mb : positive) (ea eb : Z) : Z :=
  cond_Zopp sa (Zpos ma * 2 ^ (ea - Z.min ea eb))
  + cond_Zopp sb (Zpos mb * 2 ^ (eb - Z.min ea eb)).

(** ** Exceptions and the error monad *)

Inductive exn : Type :=
| KeyError (key : string)
| TypeError (what : string)
| ValueError (what : string)
| AttributeError (name : string)
| ModuleNotFoundError (name : string)
| ZeroDivisionError
(** [Exception("property_data parameter required to be dictionary")] *)
| PropertyDataNotDict
(** [Exception(f"None of the model has base accuracy:{base_accuracy}")] *)
| NoneOfTheModelHasBaseAccuracy (base_accuracy : float)
(** an exception raised inside the third-party toolkit *)
| ToolkitError (what : string)
(** [HousingException(e, sys)] raised [from e] *)
| HousingException (cause : exn).

(** The exception at the bottom of a chain of [HousingException] wrappers. *)
Fixpoint origin (e : exn) : exn :=
  match e with
  | HousingException cause => origin cause
  | _ => e
  end.

(** Error kinds of the design, by origin. *)
Definition is_ArithmeticError (e : exn) : bool :=
  match origin e with ZeroDivisionError => true | _ => false end.

Definition is_NoAcceptableModelError (e : exn) : bool :=
  match origin e with NoneOfTheModelHasBaseAccuracy _ => true | _ => false end.

Inductive result (A : Type) : Type :=
| Ok (a : A)
| Raise (e : exn).

Arguments Ok {A} a.
Arguments Raise {A} e.

Definition bind {A B : Type} (c : result A) (k : A -> result B) : result B :=
  match c with
  | Ok a => k a
  | Raise e => Raise e
  end.

Notation "x <- c ;; k" := (bind c (fun x => k))
  (at level 61, c at next level, right associativity).

Notation "' pat <- c ;; k" := (bind c (fun x => match x with pat => k end))
  (at level 61, pat pattern, c at next level, right associativity).

(** [try: c  except Exception as e: raise HousingException(e, sys) from e] *)
Definition try_except {A : Type} (c : result A) : result A :=
  match c with
  | Ok a => Ok a
  | Raise e => Raise (HousingException e)
  end.

(** [a / b] on floats. *)
Definition truediv (a b : float) : result float :=
  match b with
  | S754_zero _ => Raise ZeroDivisionError
  | _ => Ok (SFdiv PyFloat.prec PyFloat.emax a b)
  end.

(** ** Loops

    The outcome of a loop body, or of a whole loop: fall through with the
    loop variables [s], leave the function with a value, or raise. *)

Inductive control (S R : Type) : Type :=
| Next (s : S)
| Return (r : R)
| Throw (e : exn).

Arguments Next {S R} s.
Arguments Return {S R} r.
Arguments Throw {S R} e.

(** [for a in l: body] *)
Fixpoint for_in {A S R : Type} (body : A -> S -> control S R)
    (l : list A) (s : S) : control S R :=
  match l with
  | [] => Next s
  | a :: l' =>
      match body a s with
      | Next s' => for_in body l' s'
      | Return r => Return r
      | Throw e => Throw e
      end
  end.

(** Running a computation inside a loop body. *)
Definition cbind {A S R : Type} (c : result A) (k : A -> control S R)
  : control S R :=
  match c with
  | Ok a => k a
  | Raise e => Throw e
  end.

Notation "x <~ c ;; k" := (cbind c (fun x => k))
  (at level 61, c at next level, right associativity).

(** ** Configuration documents

    What [yaml.safe_load] yields, for documents whose mapping keys are
    strings.  A mapping keeps the order of the document. *)

#[warnings="-register-all"]
Inductive yaml : Type :=
| YNull
| YBool (b : bool)
| YInt (z : Z)
| YFloat (f : float)
| YStr (s : string)
| YSeq (items : list yaml)
| YMap (entries : list (string * yaml)).

Definition MODEL_SELECTION_KEY : string := "model_selection".
Definition MODULE_KEY : string := "module".
Definition CLASS_KEY : string := "class".
Definition PARAM_KEY : string := "params".
Definition SEARCH_PARAM_GRID_KEY : string := "search_param_grid".
Definition GRID_SEARCH_KEY : string := "grid_search".

Fixpoint assoc {V : Type} (k : string) (entries : list (string * V)) : option V :=
  match entries with
  | [] => None
  | (k', v) :: rest => if String.eqb k k' then Some v else assoc k rest
  end.

(** [d[k]] with a string key. *)
Definition getitem (d : yaml) (k : string) : result yaml :=
  match d with
  | YMap entries =>
      match assoc k entries with
      | Some v => Ok v
      | None => Raise (KeyError k)
      end
  | _ => Raise (TypeError "subscript")
  end.

(** [d.keys()] *)
Definition keys (d : yaml) : result (list string) :=
  match d with
  | YMap entries => Ok (map fst entries)
  | _ => Raise (AttributeError "keys")
  end.

(** [k in d], for a mapping [d]. *)
Definition contains (d : yaml) (k : string) : bool :=
  match d with
  | YMap entries => match assoc k entries with Some _ => true | None => false end
  | _ => false
  end.

(** [d[k] = v] on the entries of a mapping: a key that is present keeps its
    place. *)
Fixpoint setitem (entries : list (string * yaml)) (k : string) (v : yaml)
  : list (string * yaml) :=
  match entries with
  | [] => [(k, v)]
  | (k', v') :: rest =>
      if String.eqb k k' then (k, v) :: rest else (k', v') :: setitem rest k v
  end.

(** The key and the value an item of a sequence gives [dict]: the two
    elements of a two-element sequence, the two characters of a
    two-character string, the two keys of a two-key mapping.  Keys are
    strings throughout this model (see [yaml]); a pair whose key is another
    scalar, which Python takes, has no counterpart here and is refused, as is
    a key that is a sequence or a mapping, which Python refuses too. *)
Definition dict_item (item : yaml) : result (string * yaml) :=
  match item with
  | YSeq [YStr k; v] => Ok (k, v)
  | YSeq [_; _] => Raise (TypeError "unhashable or non-string key")
  | YSeq _ => Raise (ValueError "dictionary update sequence element")
  | YStr (String a (String b EmptyString)) =>
      Ok (String a EmptyString, YStr (String b EmptyString))
  | YStr _ => Raise (ValueError "dictionary update sequence element")
  | YMap [(k1, _); (k2, _)] => Ok (k1, YStr k2)
  | YMap _ => Raise (ValueError "dictionary update sequence element")
  | _ => Raise (TypeError "cannot convert dictionary update sequence element")
  end.

(** [dict(d)]: a copy of a mapping, or the mapping that the items of a
    sequence build, a later item replacing the value of an earlier one with
    the same key.  A string is the sequence of its characters, so only the
    empty string makes a dict; the other scalars cannot be iterated. *)
Definition dict (d : yaml) : result yaml :=
  match d with
  | YMap entries => Ok (YMap entries)
  | YSeq items =>
      match for_in (R := Empty_set)
              (fun item entries =>
                 kv <~ dict_item item ;;
                 Next (setitem entries (fst kv) (snd kv)))
              items [] with
      | Next entries => Ok (YMap entries)
      | Return r => match r with end
      | Throw e => Raise e
      end
  | YStr EmptyString => Ok (YMap [])
  | YStr _ => Raise (ValueError "dictionary update sequence element")
  | _ => Raise (TypeError "object is not iterable")
  end.

(** The mapping [get_sample_model_config_yaml_file] dumps to
    [<export_dir>/model.yaml]. *)
Definition model_config : yaml :=
  YMap [
    (GRID_SEARCH_KEY, YMap [
       (MODULE_KEY, YStr "sklearn.model_selection");
       (CLASS_KEY, YStr "GridSearchCV");
       (PARAM_KEY, YMap [("cv", YInt 3); ("verbose", YInt 1)])]);
    (MODEL_SELECTION_KEY, YMap [
       ("module_0", YMap [
          (MODULE_KEY, YStr "module_of_model");
          (CLASS_KEY, YStr "ModelClassName");
          (PARAM_KEY, YMap [("param_name1", YStr "value1");
                            ("param_name2", YStr "value2")]);
          (SEARCH_PARAM_GRID_KEY,
             YMap [("param_name", YSeq [YStr "param_value_1";
                                         YStr "param_value_2"])])])])].

(** ** The third-party toolkit

    What the program consumes and does not define: importing a class by
    name, constructing estimators and search routines, attribute assignment,
    fitting, prediction and the metrics.  Every call can raise. *)

Class Toolkit : Type := {
  (** live objects: estimators and search routines *)
  obj : Type;
  module_ref : Type;
  class_ref : Type;
  features : Type;
  target : Type;
  prediction : Type;
  (** [importlib.import_module(name)] *)
  import_module : string -> result module_ref;
  (** [getattr(module, class_name)] *)
  getattr : module_ref -> string -> result class_ref;
  (** [cls()]; a live object is modelled by what it holds, so two instances
      built alike are the same value here, where Python tells them apart *)
  construct : class_ref -> result obj;
  (** [cls(estimator=model, param_grid=grid)] *)
  construct_search : class_ref -> obj -> yaml -> result obj;
  (** [setattr(instance, key, value)], giving the instance afterwards *)
  setattr : obj -> string -> yaml -> result obj;
  (** [str(model)] *)
  str : obj -> string;
  (** [search.fit(X, y)], giving the search routine afterwards *)
  fit : obj -> features -> target -> result obj;
  best_estimator_ : obj -> result obj;
  best_params_ : obj -> result yaml;
  best_score_ : obj -> result float;
  (** [model.predict(X)] *)
  predict : obj -> features -> result prediction;
  (** [sklearn.metrics.r2_score], a Python float *)
  r2_score : target -> prediction -> result float;
  mean_squared_error : target -> prediction -> result float
}.

(** ** The named tuples *)

Module InitialisedModelDetail.
Record t `{Toolkit} : Type := mk {
  model_serial_number : string;
  model : obj;
  param_grid_search : yaml;
  model_name : string
}.
End InitialisedModelDetail.

Module GridSearchedBestModel.
Record t `{Toolkit} : Type := mk {
  model_serial_number : string;
  model : obj;
  best_model : obj;
  best_parameters : yaml;
  best_score : float
}.
End GridSearchedBestModel.

(** ** The regression-model comparison

    The expressions of [evaluate_regression_model] on the two accuracies of a
    model, and the call that builds its report. *)

(** [2*(train_acc * test_acc)/(train_acc + test_acc)] *)
Definition model_accuracy (train_acc test_acc : float) : result float :=
  truediv (PyFloat.mul (PyFloat.of_int 2) (PyFloat.mul train_acc test_acc))
          (PyFloat.add train_acc test_acc).

(** The harmonic mean of two real numbers, [2*x*y/(x+y)], as the design
    states the combined accuracy. *)
Definition harmonic_mean (x y : R) : R := (2 * x * y / (x + y))%R.

Definition diff_test_train_acc (train_acc test_acc : float) : float :=
  PyFloat.abs (PyFloat.sub test_acc train_acc).

(** [model_accuracy >= base_accuracy and diff_test_train_acc < 0.05] *)
Definition acceptable (base_accuracy accuracy diff : float) : bool :=
  PyFloat.ge accuracy base_accuracy && PyFloat.lt diff (PyFloat.lit 5 2).

Module MetricInfoArtifact.
(** The fields of the named tuple, in the order of its declaration. *)
Definition fields : list string :=
  ["model_name"; "model_object"; "train_rmse"; "test_rmse";
   "train_accuracy"; "test_accuracy"; "model_accuracy"; "index_number"].
End MetricInfoArtifact.

(** The keywords of the call [MetricInfoArtifact(...)] that builds the report
    of an accepted model, in the order they are written. *)
Definition report_call_keywords : list string :=
  ["model_name"; "model_accuracy"; "train_rmse"; "test_rmse";
   "train_accuracy"; "test_accuracy"; "model_accuracy"; "index_number"].

(** The first keyword that a call gives a second time. *)
Fixpoint repeated_keyword (given : list string) : option string :=
  match given with
  | [] => None
  | k :: rest =>
      if existsb (String.eqb k) rest then Some k else repeated_keyword rest
  end.

(** The first field that a call leaves without a value. *)
Definition missing_field (fields given : list string) : option string :=
  find (fun f => negb (existsb (String.eqb f) given)) fields.

(** What CPython's compiler makes of a call with keyword arguments: it
    refuses a call that gives a keyword twice, before anything runs. *)
Inductive compiled : Type :=
| Compiles
(** [SyntaxError: keyword argument repeated: keyword] *)
| SyntaxError_keyword_argument_repeated (keyword : string).

Definition compile_call (keywords : list string) : compiled :=
  match repeated_keyword keywords with
  | Some k => SyntaxError_keyword_argument_repeated k
  | None => Compiles
  end.

(** Compiling [evaluate_regression_model]: the report call is its only call
    with keyword arguments.  A function that is refused is never defined, so
    it has no run for any argument. *)
Definition evaluate_regression_model_compiled : compiled :=
  compile_call report_call_keywords.

(** ** The model factory *)

Record ModelFactory `{Toolkit} : Type := {
  config : yaml;
  models_initialisation_config : yaml;
  initialised_model_list : option (list InitialisedModelDetail.t);
  grid_search_cv_module : yaml;
  grid_search_class_name : yaml;
  grid_search_property_data : yaml;
  (** the entries are what the per-model search returned, [None] included *)
  grid_searched_best_model_list : option (list (option GridSearchedBestModel.t))
}.

Section Factory.
Context `{Toolkit}.

(** [ModelFactory(model_config_path)], from the mapping [read_params] loaded. *)
Definition ModelFactory_init (config : yaml) : result ModelFactory :=
  selection <- getitem config MODEL_SELECTION_KEY ;;
  grid_search <- getitem config GRID_SEARCH_KEY ;;
  module_name <- getitem grid_search MODULE_KEY ;;
  grid_search <- getitem config GRID_SEARCH_KEY ;;
  class_name <- getitem grid_search CLASS_KEY ;;
  grid_search <- getitem config GRID_SEARCH_KEY ;;
  params <- getitem grid_search PARAM_KEY ;;
  property_data <- dict params ;;
  Ok {| config := config;
        models_initialisation_config := selection;
        initialised_model_list := None;
        grid_search_cv_module := module_name;
        grid_search_class_name := class_name;
        grid_search_property_data := property_data;
        grid_searched_best_model_list := None |}.

Definition class_for_name (module_name class_name : yaml) : result class_ref :=
  try_except
    match module_name with
    | YStr module_name =>
        module <- import_module module_name ;;
        match class_name with
        | YStr class_name => getattr module class_name
        | _ => Raise (TypeError "attribute name must be string")
        end
    | _ =>
        (* [import_module] starts with [name.startswith('.')] *)
        Raise (AttributeError "startswith")
    end.

Definition update_property_of_class (instance_ref : obj) (property_data : yaml)
  : result obj :=
  try_except
    match property_data with
    | YMap items =>
        match for_in (fun '(key, value) instance_ref =>
                        instance_ref <~ setattr instance_ref key value ;;
                        Next instance_ref)
                     items instance_ref with
        | Next instance_ref => Ok instance_ref
        | Return r => Ok r
        | Throw e => Raise e
        end
    | _ => Raise PropertyDataNotDict
    end.

(** The text a string of the document is formatted as. *)
Definition format (v : yaml) : string :=
  match v with
  | YStr s => s
  | _ => ""
  end.

(** The body of the loop over the serial numbers; the loop variables are
    [initialised_model_list] and the factory.  Every path through the body
    ends in [return] or raises. *)
Definition initialise_step (model_serial_number : string)
    (s : list InitialisedModelDetail.t * ModelFactory)
  : control (list InitialisedModelDetail.t * ModelFactory)
            (option (list InitialisedModelDetail.t) * ModelFactory) :=
  let '(initialised_model_list, self) := s in
  model_initialisation_config <~
    getitem (models_initialisation_config self) model_serial_number ;;
  module_name <~ getitem model_initialisation_config MODULE_KEY ;;
  class_name <~ getitem model_initialisation_config CLASS_KEY ;;
  model_obj_ref <~ class_for_name module_name class_name ;;
  model <~ construct model_obj_ref ;;
  model <~ (if contains model_initialisation_config PARAM_KEY then
              params <- getitem model_initialisation_config PARAM_KEY ;;
              model_obj_property_data <- dict params ;;
              update_property_of_class model model_obj_property_data
            else Ok model) ;;
  param_grid_search <~ getitem model_initialisation_config SEARCH_PARAM_GRID_KEY ;;
  let model_name := (format module_name ++ "." ++ format class_name)%string in
  let detail :=
    InitialisedModelDetail.mk _ model_serial_number model param_grid_search
                              model_name in
  let initialised_model_list := initialised_model_list ++ [detail] in
  let self :=
    {| config := config self;
       models_initialisation_config := models_initialisation_config self;
       initialised_model_list := Some initialised_model_list;
       grid_search_cv_module := grid_search_cv_module self;
       grid_search_class_name := grid_search_class_name self;
       grid_search_property_data := grid_search_property_data self;
       grid_searched_best_model_list := grid_searched_best_model_list self |} in
  Return (Some initialised_model_list, self).

(** The result and the factory afterwards; a loop that ends without
    [return] makes the function give [None]. *)
Definition get_initialised_model_list (self : ModelFactory)
  : result (option (list InitialisedModelDetail.t) * ModelFactory) :=
  match (serial_numbers <~ keys (models_initialisation_config self) ;;
         for_in initialise_step serial_numbers ([], self)) with
  | Next (_, self) => Ok (None, self)
  | Return r => Ok r
  | Throw e => Raise (HousingException e)
  end.

Definition execute_grid_search_operation (self : ModelFactory)
    (initialized_model : InitialisedModelDetail.t)
    (input_feature : features) (output_feature : target)
  : result GridSearchedBestModel.t :=
  try_except
    (grid_search_cv_ref <-
       class_for_name (grid_search_cv_module self) (grid_search_class_name self) ;;
     grid_search_cv <-
       construct_search grid_search_cv_ref
         (InitialisedModelDetail.model initialized_model)
         (InitialisedModelDetail.param_grid_search initialized_model) ;;
     grid_search_cv <-
       update_property_of_class grid_search_cv (grid_search_property_data self) ;;
     grid_search_cv <- fit grid_search_cv input_feature output_feature ;;
     best_estimator <- best_estimator_ grid_search_cv ;;
     best_params <- best_params_ grid_search_cv ;;
     best_score <- best_score_ grid_search_cv ;;
     Ok (GridSearchedBestModel.mk _
           (InitialisedModelDetail.model_serial_number initialized_model)
           (InitialisedModelDetail.model initialized_model)
           best_estimator best_params best_score)).

(** The search is run and its result dropped: the body has no [return]. *)
Definition initiate_best_parameter_search_for_initialised_model
    (self : ModelFactory) (initialised_model : InitialisedModelDetail.t)
    (input_feature : features) (output_feature : target)
  : result (option GridSearchedBestModel.t) :=
  try_except
    (_ <- execute_grid_search_operation self initialised_model
            input_feature output_feature ;;
     Ok None).

Definition set_grid_searched_best_model_list (self : ModelFactory)
    (l : list (option GridSearchedBestModel.t)) : ModelFactory :=
  {| config := config self;
     models_initialisation_config := models_initialisation_config self;
     initialised_model_list := initialised_model_list self;
     grid_search_cv_module := grid_search_cv_module self;
     grid_search_class_name := grid_search_class_name self;
     grid_search_property_data := grid_search_property_data self;
     grid_searched_best_model_list := Some l |}.

Definition initiate_best_parameter_search_for_initialised_models
    (self : ModelFactory) (initialised_model_list : list InitialisedModelDetail.t)
    (input_feature : features) (output_feature : target)
  : result (list (option GridSearchedBestModel.t) * ModelFactory) :=
  match for_in (R := Empty_set)
          (fun initialised_model '(found, self) =>
             grid_searched_best_model <~
               initiate_best_parameter_search_for_initialised_model
                 self initialised_model input_feature output_feature ;;
             let found := found ++ [grid_searched_best_model] in
             Next (found, set_grid_searched_best_model_list self found))
          initialised_model_list
          ([], set_grid_searched_best_model_list self []) with
  | Next r => Ok r
  | Return r => match r with end
  | Throw e => Raise (HousingException e)
  end.

Definition get_model_detail (model_details : list InitialisedModelDetail.t)
    (model_serial_number : string) : result (option InitialisedModelDetail.t) :=
  match for_in (S := unit)
          (fun model_data _ =>
             if String.eqb (InitialisedModelDetail.model_serial_number model_data)
                           model_serial_number
             then Return (Some model_data)
             else Next tt)
          model_details tt with
  | Next _ => Ok None
  | Return r => Ok r
  | Throw e => Raise (HousingException e)
  end.

(** [grid_searched_best_model.best_score], on an entry that may be [None]. *)
Definition get_best_score (entry : option GridSearchedBestModel.t) : result float :=
  match entry with
  | Some r => Ok (GridSearchedBestModel.best_score r)
  | None => Raise (AttributeError "best_score")
  end.

(** The body of the loop over the search results; the loop variables are
    [base_accuracy] and [best_model].  Every path through the body ends in
    [return] or raises. *)
Definition select_step (grid_searched_best_model : option GridSearchedBestModel.t)
    (s : float * option GridSearchedBestModel.t)
  : control (float * option GridSearchedBestModel.t)
            (option GridSearchedBestModel.t) :=
  let '(base_accuracy, best_model) := s in
  best_score <~ get_best_score grid_searched_best_model ;;
  let '(base_accuracy, best_model) :=
    if PyFloat.lt base_accuracy best_score
    then (best_score, grid_searched_best_model)
    else (base_accuracy, best_model) in
  match best_model with
  | None => Throw (NoneOfTheModelHasBaseAccuracy base_accuracy)
  | Some _ => Return best_model
  end.

Definition get_best_model_from_grid_searched_best_model_list
    (grid_searched_best_model_list : list (option GridSearchedBestModel.t))
    (base_accuracy : float) : result (option GridSearchedBestModel.t) :=
  match for_in select_step grid_searched_best_model_list (base_accuracy, None) with
  | Next _ => Ok None
  | Return r => Ok r
  | Throw e => Raise (HousingException e)
  end.

Definition get_best_model (self : ModelFactory) (X : features) (y : target)
    (base_accuracy : float)
  : result (option GridSearchedBestModel.t * ModelFactory) :=
  try_except
    ('(initialized_model_list, self) <- get_initialised_model_list self ;;
     match initialized_model_list with
     | None =>
         (* the callee's [for] over [None], inside the callee's [try] *)
         Raise (HousingException (TypeError "NoneType is not iterable"))
     | Some initialized_model_list =>
         '(grid_searched_best_model_list, self) <-
           initiate_best_parameter_search_for_initialised_models
             self initialized_model_list X y ;;
         best <- get_best_model_from_grid_searched_best_model_list
                   grid_searched_best_model_list base_accuracy ;;
         Ok (best, self)
     end).

End Factory.

(** ** Views of the factory used to state its properties *)

Section FactoryViews.
Context `{Toolkit}.

(** [self.initialised_model_list = l] *)
Definition set_initialised_model_list (self : ModelFactory)
    (l : list InitialisedModelDetail.t) : ModelFactory :=
  {| config := config self;
     models_initialisation_config := models_initialisation_config self;
     initialised_model_list := Some l;
     grid_search_cv_module := grid_search_cv_module self;
     grid_search_class_name := grid_search_class_name self;
     grid_search_property_data := grid_search_property_data self;
     grid_searched_best_model_list := grid_searched_best_model_list self |}.

(** The entry one iteration of [get_initialised_model_list] builds from the
    descriptor [model_initialisation_config] found under a serial number:
    the statements of the loop body between the lookup of the descriptor and
    the [append]. *)
Definition initialise_detail (model_serial_number : string)
    (model_initialisation_config : yaml) : result InitialisedModelDetail.t :=
  module_name <- getitem model_initialisation_config MODULE_KEY ;;
  class_name <- getitem model_initialisation_config CLASS_KEY ;;
  model_obj_ref <- class_for_name module_name class_name ;;
  model <- construct model_obj_ref ;;
  model <- (if contains model_initialisation_config PARAM_KEY then
              params <- getitem model_initialisation_config PARAM_KEY ;;
              model_obj_property_data <- dict params ;;
              update_property_of_class model model_obj_property_data
            else Ok model) ;;
  param_grid_search <- getitem model_initialisation_config SEARCH_PARAM_GRID_KEY ;;
  Ok (InitialisedModelDetail.mk _ model_serial_number model param_grid_search
        (format module_name ++ "." ++ format class_name)%string).

End FactoryViews.

(** ** The selection policy as the design words it

    Modelled from the design's words, for comparison with the code: walk the
    whole sequence, keep a result whose score is strictly above the running
    floor, raise the floor to it, and fail only when nothing was kept. *)

Section SelectionDesign.
Context `{Toolkit}.

Fixpoint greedy_walk (results : list GridSearchedBestModel.t) (floor : float)
    (best : option GridSearchedBestModel.t) : float * option GridSearchedBestModel.t :=
  match results with
  | [] => (floor, best)
  | r :: rest =>
      if PyFloat.lt floor (GridSearchedBestModel.best_score r)
      then greedy_walk rest (GridSearchedBestModel.best_score r) (Some r)
      else greedy_walk rest floor best
  end.

Definition select_best_design (results : list GridSearchedBestModel.t)
    (base_accuracy : float) : result (option GridSearchedBestModel.t) :=
  match greedy_walk results base_accuracy None with
  | (_, Some r) => Ok (Some r)
  | (floor, None) => Raise (HousingException (NoneOfTheModelHasBaseAccuracy floor))
  end.

End SelectionDesign.

(** ** A small toolkit to run the program on

    Three importable modules; an estimator records its class, the attributes
    assigned to it and the accuracies it reaches on the training and the test
    part; a search routine reports the training accuracy of its estimator. *)

Module Demo.

Record estimator : Type := {
  class_of : string * string;
  attributes : list (string * yaml);
  r2_train : float;
  r2_test : float
}.

Definition modules : list (string * list string) :=
  [("sklearn.model_selection", ["GridSearchCV"]);
   ("sklearn.linear_model", ["LinearRegression"]);
   ("sklearn.tree", ["DecisionTreeRegressor"])].

Definition scored (name : string) (train test : float) : estimator :=
  {| class_of := ("demo", name); attributes := [];
     r2_train := train; r2_test := test |}.

#[global] Instance toolkit : Toolkit := {|
  obj := estimator;
  module_ref := string * list string;
  class_ref := string * string;
  features := bool;
  target := unit;
  prediction := float;
  import_module := fun name =>
    match assoc name modules with
    | Some classes => Ok (name, classes)
    | None => Raise (ModuleNotFoundError name)
    end;
  getattr := fun module class_name =>
    if existsb (String.eqb class_name) (snd module)
    then Ok (fst module, class_name)
    else Raise (AttributeError class_name);
  construct := fun ref =>
    Ok {| class_of := ref; attributes := [];
          r2_train := PyFloat.lit 7 1; r2_test := PyFloat.lit 7 1 |};
  construct_search := fun ref model grid =>
    Ok {| class_of := ref; attributes := [("param_grid", grid)];
          r2_train := r2_train model; r2_test := r2_test model |};
  setattr := fun o key value =>
    Ok {| class_of := class_of o;
          attributes := attributes o ++ [(key, value)];
          r2_train := r2_train o; r2_test := r2_test o |};
  str := fun o => (snd (class_of o) ++ "()")%string;
  fit := fun o _ _ => Ok o;
  best_estimator_ := fun o => Ok o;
  best_params_ := fun o => Ok (YMap (attributes o));
  best_score_ := fun o => Ok (r2_train o);
  predict := fun o X => Ok (if X then r2_train o else r2_test o);
  r2_score := fun _ p => Ok p;
  mean_squared_error := fun _ _ => Ok (PyFloat.of_int 1)
|}.

(** A search result with a given serial number and score. *)
Definition searched (serial : string) (score : float) : GridSearchedBestModel.t :=
  GridSearchedBestModel.mk toolkit serial
    (scored "Model" score score) (scored "Model" score score) (YMap []) score.

(** A descriptor of the model-selection mapping. *)
Definition descriptor (module_name class_name : string) : yaml :=
  YMap [(MODULE_KEY, YStr module_name);
        (CLASS_KEY, YStr class_name);
        (PARAM_KEY, YMap [("fit_intercept", YBool true)]);
        (SEARCH_PARAM_GRID_KEY, YMap [("fit_intercept", YSeq [YBool true; YBool false])])].

Definition grid_search_section : yaml :=
  YMap [(MODULE_KEY, YStr "sklearn.model_selection");
        (CLASS_KEY, YStr "GridSearchCV");
        (PARAM_KEY, YMap [("cv", YInt 3); ("verbose", YInt 1)])].

(** A configuration with the given model-selection mapping. *)
Definition config_with (selection : list (string * yaml)) : yaml :=
  YMap [(GRID_SEARCH_KEY, grid_search_section);
        (MODEL_SELECTION_KEY, YMap selection)].

Definition two_models : yaml :=
  config_with
    [("module_0", descriptor "sklearn.linear_model" "LinearRegression");
     ("module_1", descriptor "sklearn.tree" "DecisionTreeRegressor")].

(** The two descriptors of [two_models], and the factory built from a
    configuration with a given model-selection mapping. *)
Definition selection2 : list (string * yaml) :=
  [("module_0", descriptor "sklearn.linear_model" "LinearRegression");
   ("module_1", descriptor "sklearn.tree" "DecisionTreeRegressor")].

Definition factory_for (selection : list (string * yaml)) : ModelFactory :=
  {| config := config_with selection;
     models_initialisation_config := YMap selection;
     initialised_model_list := None;
     grid_search_cv_module := YStr "sklearn.model_selection";
     grid_search_class_name := YStr "GridSearchCV";
     grid_search_property_data := YMap [("cv", YInt 3); ("verbose", YInt 1)];
     grid_searched_best_model_list := None |}.

(** The entry initialised for [module_0]. *)
Definition linear_detail : InitialisedModelDetail.t :=
  InitialisedModelDetail.mk toolkit "module_0"
    {| class_of := ("sklearn.linear_model", "LinearRegression");
       attributes := [("fit_intercept", YBool true)];
       r2_train := PyFloat.lit 7 1; r2_test := PyFloat.lit 7 1 |}
    (YMap [("fit_intercept", YSeq [YBool true; YBool false])])
    "sklearn.linear_model.LinearRegression".

End Demo.

(** * Properties *)

(** ** Floats *)

Example lit_0_8 : PyFloat.lit 8 1 = S754_finite false 7205759403792794 (-53).
Proof. reflexivity. Qed.

Example lit_0_05 : PyFloat.lit 5 2 = S754_finite false 7205759403792794 (-57).
Proof. reflexivity. Qed.

Example lit_0_6 : PyFloat.lit 6 1 = S754_finite false 5404319552844595 (-53).
Proof. reflexivity. Qed.

Lemma SFcompare_antisym (x y : float) :
  SFcompare y x = option_map CompOpp (SFcompare x y).
Proof.
  destruct x as [sx | sx | | sx mx ex], y as [sy | sy | | sy my ey];
    simpl; try reflexivity;
    try (destruct sx; reflexivity); try (destruct sy; reflexivity);
    try (destruct sx, sy; reflexivity).
  destruct sx, sy; simpl; try reflexivity;
    rewrite (Z.compare_antisym ex ey); destruct (ex ?= ey)%Z; simpl;
    try reflexivity.
  - do 2 f_equal. symmetry. exact (Pos.compare_cont_antisym mx my Eq).
  - f_equal. symmetry. exact (Pos.compare_cont_antisym mx my Eq).
Qed.

(** A score at or below the floor is not strictly above it. *)
Lemma le_not_lt (a b : float) : PyFloat.le a b = true -> PyFloat.lt b a = false.
Proof.
  unfold PyFloat.le, PyFloat.lt, SFleb, SFltb.
  rewrite (SFcompare_antisym a b).
  destruct (SFcompare a b) as [[ | | ] | ]; simpl; congruence.
Qed.

(** ** Loops *)

Lemma for_in_app {A S R : Type} (body : A -> S -> control S R)
    (l1 l2 : list A) (s s1 : S) :
  for_in body l1 s = Next s1 ->
  for_in body (l1 ++ l2) s = for_in body l2 s1.
Proof.
  revert s; induction l1 as [ | a l1 IH]; intros s Hl1; simpl in *.
  - now inversion Hl1.
  - destruct (body a s); try discriminate. now apply IH.
Qed.

(** A body that never falls through makes the loop stop at the first item. *)
Lemma for_in_first {A S R : Type} (body : A -> S -> control S R)
    (a : A) (l : list A) (s : S) :
  (forall s', body a s <> Next s') ->
  for_in body (a :: l) s = body a s.
Proof.
  intros Hstop; simpl. destruct (body a s) as [s' | r | e]; try reflexivity.
  now elim (Hstop s').
Qed.

(** ** The selection policy *)

Section SelectionFacts.
Context `{Toolkit}.

Lemma select_step_stops (entry : option GridSearchedBestModel.t)
    (s s' : float * option GridSearchedBestModel.t) :
  select_step entry s <> Next s'.
Proof.
  destruct s as [base best]; unfold select_step.
  destruct entry as [r | ]; simpl; try discriminate.
  destruct (PyFloat.lt base (GridSearchedBestModel.best_score r));
    try discriminate.
  destruct best; discriminate.
Qed.

(** Only the first search result is looked at: it is returned when its score
    is strictly above [base_accuracy], and the call fails otherwise. *)
Lemma select_first_only (r : GridSearchedBestModel.t)
    (rest : list (option GridSearchedBestModel.t)) (base_accuracy : float) :
  get_best_model_from_grid_searched_best_model_list (Some r :: rest) base_accuracy
  = if PyFloat.lt base_accuracy (GridSearchedBestModel.best_score r)
    then Ok (Some r)
    else Raise (HousingException (NoneOfTheModelHasBaseAccuracy base_accuracy)).
Proof.
  unfold get_best_model_from_grid_searched_best_model_list.
  rewrite for_in_first by (intros s'; apply select_step_stops).
  unfold select_step; simpl.
  now destruct (PyFloat.lt base_accuracy (GridSearchedBestModel.best_score r)).
Qed.

(** C4: select_best over a non-empty sequence of search results whose scores
    are all at or below [base_accuracy] fails with the "no acceptable model"
    error and returns no result. *)
Theorem select_best_all_below_fails (results : list GridSearchedBestModel.t)
    (base_accuracy : float) :
  results <> [] ->
  Forall (fun r => PyFloat.le (GridSearchedBestModel.best_score r) base_accuracy = true)
         results ->
  get_best_model_from_grid_searched_best_model_list (map Some results) base_accuracy
    = Raise (HousingException (NoneOfTheModelHasBaseAccuracy base_accuracy))
  /\ is_NoAcceptableModelError
       (HousingException (NoneOfTheModelHasBaseAccuracy base_accuracy)) = true.
Proof.
  intros Hne Hall. split; [ | reflexivity].
  destruct results as [ | r rest]; [congruence | ].
  simpl. rewrite select_first_only.
  inversion Hall as [ | ? ? Hr _]; subst.
  now rewrite (le_not_lt _ _ Hr).
Qed.

(** C9: select_best on an empty sequence of search results returns [None] and
    raises nothing. *)
Theorem select_best_empty_returns_None (base_accuracy : float) :
  get_best_model_from_grid_searched_best_model_list [] base_accuracy = Ok None.
Proof. reflexivity. Qed.

End SelectionFacts.

(** The witness of [select_best_all_below_fails]: scores 0.5 and 0.55 under
    the floor 0.6. *)
Lemma select_best_all_below_fails_witness :
  get_best_model_from_grid_searched_best_model_list
    (map Some [Demo.searched "module_0" (PyFloat.lit 5 1);
               Demo.searched "module_1" (PyFloat.lit 55 2)])
    (PyFloat.lit 6 1)
  = Raise (HousingException (NoneOfTheModelHasBaseAccuracy (PyFloat.lit 6 1)))
  /\ is_NoAcceptableModelError
       (HousingException (NoneOfTheModelHasBaseAccuracy (PyFloat.lit 6 1))) = true.
Proof.
  apply (select_best_all_below_fails
           [Demo.searched "module_0" (PyFloat.lit 5 1);
            Demo.searched "module_1" (PyFloat.lit 55 2)] (PyFloat.lit 6 1)).
  - discriminate.
  - repeat constructor.
Defined.

(** C2: on the scores [0.5, 0.7, 0.65, 0.9] with floor 0.6 the code fails
    after its first iteration, where the walk over the whole sequence that
    the design describes returns the result with score 0.9; on [0.9, 0.5]
    both return the 0.9 result. *)
Theorem select_best_stops_at_first_result :
  let results1 := [Demo.searched "module_0" (PyFloat.lit 5 1);
                   Demo.searched "module_1" (PyFloat.lit 7 1);
                   Demo.searched "module_2" (PyFloat.lit 65 2);
                   Demo.searched "module_3" (PyFloat.lit 9 1)] in
  let results2 := [Demo.searched "module_0" (PyFloat.lit 9 1);
                   Demo.searched "module_1" (PyFloat.lit 5 1)] in
  let base := PyFloat.lit 6 1 in
  get_best_model_from_grid_searched_best_model_list (map Some results1) base
    = Raise (HousingException (NoneOfTheModelHasBaseAccuracy base))
  /\ select_best_design results1 base
    = Ok (Some (Demo.searched "module_3" (PyFloat.lit 9 1)))
  /\ get_best_model_from_grid_searched_best_model_list (map Some results2) base
    = Ok (Some (Demo.searched "module_0" (PyFloat.lit 9 1)))
  /\ select_best_design results2 base
    = Ok (Some (Demo.searched "module_0" (PyFloat.lit 9 1))).
Proof. repeat split. Qed.

(** ** The model factory *)

Section FactoryFacts.
Context `{Toolkit}.

Lemma cbind_Return {A S R : Type} (c : result A) (k : A -> control S R) (r : R) :
  cbind c k = Return r -> exists a, c = Ok a /\ k a = Return r.
Proof. destruct c as [a | e]; simpl; [eauto | discriminate]. Qed.

Lemma cbind_not_Next {A S R : Type} (c : result A) (k : A -> control S R) :
  (forall a s, k a <> Next s) -> forall s, cbind c k <> Next s.
Proof. intros Hk s; destruct c as [a | e]; simpl; [apply Hk | discriminate]. Qed.

Lemma initialise_step_stops (serial : string)
    (s s' : list InitialisedModelDetail.t * ModelFactory) :
  initialise_step serial s <> Next s'.
Proof.
  destruct s as [l self]; unfold initialise_step.
  repeat (apply cbind_not_Next; intros ? ?). discriminate.
Qed.

(** What one iteration returns: the list so far with one more entry. *)
Lemma initialise_step_returns (serial : string)
    (l : list InitialisedModelDetail.t) (self : ModelFactory)
    (r : option (list InitialisedModelDetail.t) * ModelFactory) :
  initialise_step serial (l, self) = Return r ->
  exists detail,
    fst r = Some (l ++ [detail])
    /\ initialised_model_list (snd r) = Some (l ++ [detail])
    /\ InitialisedModelDetail.model_serial_number detail = serial.
Proof.
  unfold initialise_step; intros Hstep.
  repeat (apply cbind_Return in Hstep; destruct Hstep as [? [_ Hstep]]).
  inversion Hstep; subst; simpl. eexists; repeat split.
Qed.

(** The list that is returned never has more than its first entry, however
    many descriptors the configuration holds. *)
Lemma get_initialised_model_list_single (self self' : ModelFactory)
    (l : list InitialisedModelDetail.t) :
  get_initialised_model_list self = Ok (Some l, self') ->
  List.length l = 1%nat /\ initialised_model_list self' = Some l.
Proof.
  unfold get_initialised_model_list.
  destruct (keys (models_initialisation_config self)) as [ks | e]; simpl;
    [ | discriminate].
  destruct ks as [ | serial ks].
  - simpl; intros Hr; inversion Hr.
  - rewrite for_in_first by (intros s'; apply initialise_step_stops).
    destruct (initialise_step serial ([], self)) as [[? ?] | r | e] eqn:Hstep;
      try discriminate.
    intros Hr; inversion Hr; subst r.
    destruct (initialise_step_returns _ _ _ _ Hstep) as [d [Hfst [Hsnd _]]].
    simpl in *. inversion Hfst; subst. split; [reflexivity | exact Hsnd].
Qed.

Lemma ModelFactory_init_fields (config : yaml) (self : ModelFactory) :
  ModelFactory_init config = Ok self ->
  getitem config MODEL_SELECTION_KEY = Ok (models_initialisation_config self)
  /\ initialised_model_list self = None
  /\ grid_searched_best_model_list self = None.
Proof.
  unfold ModelFactory_init, bind; intros Hinit.
  repeat match type of Hinit with
         | match ?c with Ok _ => _ | Raise _ => _ end = _ =>
             destruct c eqn:?; try discriminate
         end.
  inversion Hinit; subst; simpl. auto.
Qed.

(** C10: when the model-selection mapping of the configuration is empty,
    [get_initialised_model_list] returns [None], not an empty list, and the
    list stored in the factory stays unset. *)
Theorem get_initialised_model_list_empty_selection
    (config : yaml) (self : ModelFactory) :
  ModelFactory_init config = Ok self ->
  getitem config MODEL_SELECTION_KEY = Ok (YMap []) ->
  get_initialised_model_list self = Ok (None, self)
  /\ initialised_model_list self = None.
Proof.
  intros Hinit Hsel.
  destruct (ModelFactory_init_fields _ _ Hinit) as [Hcfg [Hlist _]].
  rewrite Hsel in Hcfg; inversion Hcfg as [Hmap].
  split; [ | exact Hlist].
  unfold get_initialised_model_list. now rewrite <- Hmap.
Qed.

(** The per-model search never hands a search result back. *)
Lemma search_result_dropped (self : ModelFactory)
    (initialised_model : InitialisedModelDetail.t)
    (X : features) (y : target) (r : option GridSearchedBestModel.t) :
  initiate_best_parameter_search_for_initialised_model self initialised_model X y
    = Ok r ->
  r = None.
Proof.
  unfold initiate_best_parameter_search_for_initialised_model, try_except, bind.
  destruct (execute_grid_search_operation self initialised_model X y);
    intros Hr; now inversion Hr.
Qed.

End FactoryFacts.

(** The witness of [get_initialised_model_list_empty_selection]: the sample
    grid-search section with an empty model selection. *)
Lemma get_initialised_model_list_empty_selection_witness :
  exists self,
    ModelFactory_init (Demo.config_with []) = Ok self
    /\ get_initialised_model_list self = Ok (None, self)
    /\ initialised_model_list self = None.
Proof.
  eexists. split; [reflexivity | ].
  apply (get_initialised_model_list_empty_selection (Demo.config_with []));
    reflexivity.
Defined.

(** C1: on a configuration with the two descriptors [module_0] and
    [module_1], both resolvable, [get_initialised_model_list] returns one
    entry only, the one of [module_0], named "module.class". *)
Theorem get_initialised_model_list_two_descriptors :
  exists l self',
    (self <- ModelFactory_init Demo.two_models ;; get_initialised_model_list self)
      = Ok (Some l, self')
    /\ keys (models_initialisation_config self') = Ok ["module_0"; "module_1"]
    /\ map InitialisedModelDetail.model_serial_number l = ["module_0"]
    /\ map InitialisedModelDetail.model_name l
       = ["sklearn.linear_model.LinearRegression"]
    /\ List.length l = 1%nat.
Proof. do 2 eexists. repeat split. Qed.

(** C3: for the first model of the two-descriptor configuration the search
    itself yields a search result with the best model, parameters and score,
    but the per-model step returns [None], and the step over a list of
    models returns a list of [None]. *)
Theorem search_step_returns_None :
  exists self initialised_model found,
    (self <- ModelFactory_init Demo.two_models ;;
     ' (l, self) <- get_initialised_model_list self ;; Ok (l, self))
      = Ok (Some [initialised_model], self)
    /\ execute_grid_search_operation self initialised_model true tt = Ok found
    /\ GridSearchedBestModel.best_score found = PyFloat.lit 7 1
    /\ initiate_best_parameter_search_for_initialised_model
         self initialised_model true tt = Ok None
    /\ (' (results, _) <-
          initiate_best_parameter_search_for_initialised_models
            self [initialised_model; initialised_model] true tt ;;
        Ok results) = Ok [None; None].
Proof. do 3 eexists. repeat split. Qed.

(** ** The regression-model comparison *)

(** A float that compares equal to zero is one of the two zeros. *)
Lemma eqb_zero (x : float) :
  PyFloat.eqb x PyFloat.zero = true -> exists s, x = S754_zero s.
Proof.
  destruct x as [s | s | | s m e]; simpl; try discriminate.
  - eauto.
  - destruct s; discriminate.
  - destruct s; discriminate.
Qed.

(** C5: the call that builds the report of an accepted model gives the
    keyword [model_accuracy] twice and gives [model_object] no value.  The
    compiler refuses it, so the function is never defined and no report is
    returned, not even for a model with train accuracy 0.91 and test
    accuracy 0.89, which the test of the loop accepts under the floor 0.6. *)
Theorem report_call_is_refused :
  evaluate_regression_model_compiled
    = SyntaxError_keyword_argument_repeated "model_accuracy"
  /\ missing_field MetricInfoArtifact.fields report_call_keywords
     = Some "model_object"
  /\ exists accuracy,
       model_accuracy (PyFloat.lit 91 2) (PyFloat.lit 89 2) = Ok accuracy
       /\ acceptable (PyFloat.lit 6 1) accuracy
            (diff_test_train_acc (PyFloat.lit 91 2) (PyFloat.lit 89 2)) = true.
Proof.
  split; [reflexivity | split; [reflexivity | ]].
  eexists; split; reflexivity.
Qed.

(** C6: for train accuracy 0.5 and test accuracy -0.5 the sum is zero and
    the division of the combined accuracy would raise [ZeroDivisionError],
    an arithmetic error; but the function that holds the division is refused
    by the compiler, so no call of it ever reaches the division. *)
Theorem zero_sum_division_is_never_reached :
  evaluate_regression_model_compiled
    = SyntaxError_keyword_argument_repeated "model_accuracy"
  /\ PyFloat.eqb (PyFloat.add (PyFloat.lit 5 1) (PyFloat.lit (-5) 1))
                 PyFloat.zero = true
  /\ model_accuracy (PyFloat.lit 5 1) (PyFloat.lit (-5) 1)
     = Raise ZeroDivisionError
  /\ is_ArithmeticError ZeroDivisionError = true.
Proof. repeat split. Qed.

(** ** Rounding to nearest

    One operation of [SpecFloat] on normal floats, away from overflow and
    underflow, returns a normal float within a relative error of [2^-53] of
    the exact result. *)

Section RoundingToNearest.
Local Open Scope Z_scope.

(** [digits2_pos p] is the number of bits of [p]. *)
Lemma digits2_pos_bounds (p : positive) :
  2 ^ (Zpos (digits2_pos p) - 1) <= Zpos p < 2 ^ Zpos (digits2_pos p).
Proof.
  induction p as [p IH | p IH | ]; simpl digits2_pos.
  - rewrite Pos2Z.inj_succ.
    replace (Z.succ (Zpos (digits2_pos p)) - 1) with (Z.succ (Zpos (digits2_pos p) - 1)) by lia.
    rewrite !Z.pow_succ_r by lia. lia.
  - rewrite Pos2Z.inj_succ.
    replace (Z.succ (Zpos (digits2_pos p)) - 1) with (Z.succ (Zpos (digits2_pos p) - 1)) by lia.
    rewrite !Z.pow_succ_r by lia. lia.
  - simpl. lia.
Qed.

Lemma digits2_pos_unique (p : positive) (d : Z) :
  2 ^ (d - 1) <= Zpos p < 2 ^ d -> 0 < d -> Zpos (digits2_pos p) = d.
Proof.
  intros [Hlo Hhi] Hd.
  destruct (digits2_pos_bounds p) as [Hlo' Hhi'].
  destruct (Z.lt_trichotomy (Zpos (digits2_pos p)) d) as [Hlt | [Heq | Hgt]];
    [ | exact Heq | ].
  - assert (2 ^ Zpos (digits2_pos p) <= 2 ^ (d - 1))
      by (apply Z.pow_le_mono_r; lia). lia.
  - assert (2 ^ d <= 2 ^ (Zpos (digits2_pos p) - 1))
      by (apply Z.pow_le_mono_r; lia). lia.
Qed.

(** The records of the shifts: [mrs] stands for [N / D], with normal_mantissa the
    integral part, the round bit telling whether the rest reaches one half
    and the sticky bit whether something remains besides. *)

(** One shift to the right halves the mantissa and keeps the record in step
    with the fraction, now over [2 * D]. *)
Lemma shr_1_inb (N D : Z) (mrs : shr_record) :
  0 <= shr_m mrs -> 0 < D -> inb N D mrs ->
  inb N (2 * D) (shr_1 mrs) /\ shr_m (shr_1 mrs) = shr_m mrs / 2.
Proof.
  destruct mrs as [m r s]; unfold inb; cbn [shr_m shr_r shr_s].
  intros Hm HD (F & HN & HF & Hr & Hs).
  assert (Hrs : orb r s = negb (F =? 0)) by (rewrite Hr, Hs; lia).
  destruct m as [ | [p | p | ] | p]; try lia; cbn [shr_1 shr_m shr_r shr_s]; rewrite Hrs.
  - (* 0 *) split; [ | reflexivity]. exists F. repeat split; lia.
  - (* 2p+1 *) split.
    + exists (D + F). repeat split; lia.
    + change (Zpos p~1) with (2 * Zpos p + 1).
      apply Z.div_unique with 1; lia.
  - (* 2p *) split.
    + exists F. repeat split; lia.
    + change (Zpos p~0) with (2 * Zpos p).
      apply Z.div_unique with 0; lia.
  - (* 1 *) split; [ | reflexivity]. exists (D + F). repeat split; lia.
Qed.

Lemma iter_shr_1_inb (p : positive) :
  forall (N D : Z) (mrs : shr_record),
    0 <= shr_m mrs -> 0 < D -> inb N D mrs ->
    inb N (2 ^ Zpos p * D) (SpecFloat.iter_pos shr_1 p mrs)
    /\ shr_m (SpecFloat.iter_pos shr_1 p mrs) = shr_m mrs / 2 ^ Zpos p.
Proof.
  induction p as [p IH | p IH | ]; intros N D mrs Hm HD Hinb; cbn [SpecFloat.iter_pos].
  - destruct (shr_1_inb N D mrs Hm HD Hinb) as [H1 M1].
    assert (Hm1 : 0 <= shr_m (shr_1 mrs)) by (rewrite M1; apply Z.div_pos; lia).
    destruct (IH N (2 * D) _ Hm1 ltac:(lia) H1) as [H2 M2].
    assert (Hpow : 0 < 2 ^ Zpos p) by (apply Z.pow_pos_nonneg; lia).
    assert (Hm2 : 0 <= shr_m (SpecFloat.iter_pos shr_1 p (shr_1 mrs)))
      by (rewrite M2; apply Z.div_pos; lia).
    destruct (IH N (2 ^ Zpos p * (2 * D)) _ Hm2 ltac:(lia) H2) as [H3 M3].
    replace (2 ^ Zpos p~1) with (2 ^ Zpos p * (2 ^ Zpos p * 2))
      by (rewrite Pos2Z.inj_xI;
          replace (2 * Zpos p + 1) with (Zpos p + (Zpos p + 1)) by lia;
          rewrite !Z.pow_add_r by lia; rewrite Z.pow_1_r; reflexivity).
    split.
    + replace (2 ^ Zpos p * (2 ^ Zpos p * 2) * D)
        with (2 ^ Zpos p * (2 ^ Zpos p * (2 * D))) by ring. exact H3.
    + rewrite M3, M2, M1. rewrite !Z.div_div by lia. f_equal. ring.
  - assert (Hpow : 0 < 2 ^ Zpos p) by (apply Z.pow_pos_nonneg; lia).
    destruct (IH N D _ Hm HD Hinb) as [H2 M2].
    assert (Hm2 : 0 <= shr_m (SpecFloat.iter_pos shr_1 p mrs))
      by (rewrite M2; apply Z.div_pos; lia).
    destruct (IH N (2 ^ Zpos p * D) _ Hm2 ltac:(lia) H2) as [H3 M3].
    replace (2 ^ Zpos p~0) with (2 ^ Zpos p * 2 ^ Zpos p)
      by (rewrite <- Z.pow_add_r by lia; f_equal; lia).
    split.
    + replace (2 ^ Zpos p * 2 ^ Zpos p * D)
        with (2 ^ Zpos p * (2 ^ Zpos p * D)) by ring. exact H3.
    + rewrite M3, M2. rewrite Z.div_div by lia. reflexivity.
  - destruct (shr_1_inb N D mrs Hm HD Hinb) as [H1 M1].
    change (2 ^ 1) with 2. split; assumption.
Qed.

Lemma Zdigits2_bounds (m : Z) :
  0 < m -> 2 ^ (Zdigits2 m - 1) <= m < 2 ^ Zdigits2 m.
Proof.
  destruct m as [ | p | p]; try lia. intros _. apply digits2_pos_bounds.
Qed.

Lemma Zdigits2_unique (m d : Z) :
  0 < m -> 2 ^ (d - 1) <= m < 2 ^ d -> 0 < d -> Zdigits2 m = d.
Proof.
  destruct m as [ | p | p]; try lia. intros _. apply digits2_pos_unique.
Qed.

(** Rounding to nearest, ties to even, moves the mantissa to one of the two
    integers around [N / D], at most half a unit away. *)
Lemma round_inb (N D : Z) (mrs : shr_record) :
  0 < D -> inb N D mrs ->
  let m' := round_nearest_even (shr_m mrs) (loc_of_shr_record mrs) in
  - D <= 2 * (m' * D - N) <= D /\ shr_m mrs <= m' <= shr_m mrs + 1.
Proof.
  destruct mrs as [m r s]; unfold inb; cbn [shr_m shr_r shr_s].
  intros HD (F & HN & HF & Hr & Hs).
  destruct r, s; cbn [loc_of_shr_record round_nearest_even];
    try destruct (Z.even m); split; lia.
Qed.

Lemma inb_exact (m : Z) : inb m 1 (shr_record_of_loc m loc_Exact).
Proof. exists 0. cbn. repeat split; lia. Qed.

(** The shift that brings a normal_mantissa of at least 53 digits to 53 digits. *)
Lemma shr_fexp_spec (mx ex : Z) (lx : location) (N D : Z) :
  0 < D -> 0 < mx -> inb N D (shr_record_of_loc mx lx) ->
  53 <= Zdigits2 mx -> -1074 <= Zdigits2 mx + ex - 53 ->
  exists mrs,
    shr_fexp 53 1024 mx ex lx = (mrs, Zdigits2 mx + ex - 53)
    /\ inb N (2 ^ (Zdigits2 mx - 53) * D) mrs
    /\ 2 ^ 52 <= shr_m mrs < 2 ^ 53.
Proof.
  intros HD Hmx Hinb Hd Hlo.
  pose proof (Zdigits2_bounds mx Hmx) as Hb.
  assert (Hm0 : shr_m (shr_record_of_loc mx lx) = mx)
    by (destruct lx as [ | [ | | ]]; reflexivity).
  unfold shr_fexp, fexp, emin.
  rewrite Z.max_l by lia.
  remember (Zdigits2 mx) as d eqn:Ed.
  replace (d + ex - 53 - ex) with (d - 53) by lia.
  destruct (d - 53) as [ | n | n] eqn:En; try lia.
  - exists (shr_record_of_loc mx lx). cbn [shr].
    assert (Hd53 : d = 53) by lia. rewrite Hd53 in Hb.
    repeat split.
    + f_equal. lia.
    + change (2 ^ 0) with 1. now rewrite Z.mul_1_l.
    + rewrite Hm0. replace (53 - 1) with 52 in Hb by lia. lia.
    + rewrite Hm0. lia.
  - cbn [shr].
    destruct (iter_shr_1_inb n N D (shr_record_of_loc mx lx)) as [Hi Hm];
      [rewrite Hm0; lia | lia | exact Hinb | ].
    exists (SpecFloat.iter_pos shr_1 n (shr_record_of_loc mx lx)).
    assert (Hpow : 0 < 2 ^ Zpos n) by (apply Z.pow_pos_nonneg; lia).
    assert (Hsplit : 2 ^ (d - 1) = 2 ^ Zpos n * 2 ^ 52).
    { rewrite <- Z.pow_add_r by lia. f_equal. lia. }
    assert (Hsplit' : 2 ^ d = 2 ^ Zpos n * 2 ^ 53).
    { rewrite <- Z.pow_add_r by lia. f_equal. lia. }
    repeat split.
    + f_equal. lia.
    + exact Hi.
    + rewrite Hm, Hm0. apply Z.div_le_lower_bound; lia.
    + rewrite Hm, Hm0. apply Z.div_lt_upper_bound; lia.
Qed.

(** The rounding of [SpecFloat]: a positive mantissa [mx] of at least 53 bits
    standing with its location for the fraction [N / D], at an exponent away
    from overflow and underflow, is rounded to a finite float with a normal
    mantissa, within [2^-53] of the fraction relative to the result. *)
Lemma binary_round_aux_spec (sx : bool) (mx ex : Z) (lx : location) (N D : Z) :
  0 < D -> 0 < mx -> inb N D (shr_record_of_loc mx lx) ->
  53 <= Zdigits2 mx -> -1074 <= Zdigits2 mx + ex - 53 ->
  Zdigits2 mx + ex - 52 <= 971 ->
  exists mr er,
    binary_round_aux 53 1024 sx mx ex lx = S754_finite sx mr er
    /\ 2 ^ 52 <= Zpos mr < 2 ^ 53
    /\ Zdigits2 mx + ex - 53 <= er <= Zdigits2 mx + ex - 52
    /\ 2 ^ 53 * Z.abs (Zpos mr * 2 ^ (er - ex) * D - N)
       <= Zpos mr * 2 ^ (er - ex) * D.
Proof.
  intros HD Hmx Hinb Hd Hlo Hhi.
  destruct (shr_fexp_spec mx ex lx N D HD Hmx Hinb Hd Hlo)
    as (mrs1 & E1 & I1 & B1).
  remember (Zdigits2 mx) as d eqn:Ed.
  assert (HX : 0 < 2 ^ (d - 53) * D).
  { apply Z.mul_pos_pos; [apply Z.pow_pos_nonneg; lia | exact HD]. }
  pose proof (round_inb N (2 ^ (d - 53) * D) mrs1 HX I1) as [Hr1 Hr2].
  cbv zeta in Hr1, Hr2.
  unfold binary_round_aux. rewrite E1.
  remember (round_nearest_even (shr_m mrs1) (loc_of_shr_record mrs1)) as m2
    eqn:Em2.
  change (2 ^ 52) with 4503599627370496 in *.
  change (2 ^ 53) with 9007199254740992 in *.
  assert (Hm2 : 4503599627370496 <= m2 <= 9007199254740992) by lia.
  assert (Hd2 : Zdigits2 m2 = 53 \/ (Zdigits2 m2 = 54 /\ m2 = 9007199254740992)).
  { destruct (Z.eq_dec m2 9007199254740992) as [-> | Hne].
    - right. split; reflexivity.
    - left. apply Zdigits2_unique; [lia | | lia].
      change (2 ^ (53 - 1)) with 4503599627370496.
      change (2 ^ 53) with 9007199254740992. lia. }
  destruct (shr_fexp_spec m2 (d + ex - 53) loc_Exact m2 1)
    as (mrs2 & E2 & I2 & B2); [lia | lia | apply inb_exact | lia | lia | ].
  rewrite E2.
  change (2 ^ 52) with 4503599627370496 in B2.
  change (2 ^ 53) with 9007199254740992 in B2.
  destruct (shr_m mrs2) as [ | mr | mr] eqn:Emr; try lia.
  replace (Zdigits2 m2 + (d + ex - 53) - 53 <=? 1024 - 53) with true
    by (symmetry; apply Z.leb_le; lia).
  exists mr, (Zdigits2 m2 + (d + ex - 53) - 53).
  split; [reflexivity | ].
  split; [exact B2 | ].
  split; [lia | ].
  assert (Hval : Zpos mr * 2 ^ (Zdigits2 m2 + (d + ex - 53) - 53 - ex) * D
                 = m2 * (2 ^ (d - 53) * D)).
  { destruct I2 as (F2 & HN2 & HF2 & _). rewrite Emr in HN2.
    destruct Hd2 as [H53 | [H54 Hmax]].
    - rewrite H53 in *. change (2 ^ (53 - 53) * 1) with 1 in *.
      replace (53 + (d + ex - 53) - 53 - ex) with (d - 53) by lia.
      assert (H : m2 = Zpos mr) by lia. rewrite H. ring.
    - rewrite H54 in *. change (2 ^ (54 - 53) * 1) with 2 in *.
      replace (54 + (d + ex - 53) - 53 - ex) with (1 + (d - 53)) by lia.
      rewrite Z.pow_add_r by lia. change (2 ^ 1) with 2.
      assert (H : m2 = Zpos mr * 2) by lia. rewrite H. ring. }
  rewrite Hval.
  remember (2 ^ (d - 53) * D) as X eqn:EX.
  assert (Habs : 2 * Z.abs (m2 * X - N) <= X) by lia.
  assert (HmX : 4503599627370496 * X <= m2 * X)
    by (apply Z.mul_le_mono_nonneg_r; lia).
  lia.
Qed.

(** The location [SFdiv] computes from the remainder of the division. *)
Lemma new_location_inb (q r my : Z) :
  0 < my -> 0 <= r < my ->
  inb (q * my + r) my (shr_record_of_loc q (new_location my r)).
Proof.
  intros Hmy Hr. exists r. unfold new_location, new_location_even, new_location_odd.
  destruct (Z.even my) eqn:Hev.
  - destruct (Z.eqb_spec r 0) as [-> | Hne]; cbn [shr_record_of_loc shr_m shr_r shr_s].
    + repeat split; lia.
    + destruct (Z.compare_spec (2 * r) my); cbn [shr_record_of_loc shr_m shr_r shr_s]; repeat split; lia.
  - assert (Hodd : Z.odd my = true) by (rewrite <- Z.negb_even, Hev; reflexivity).
    apply Z.odd_spec in Hodd. destruct Hodd as [h Hh].
    destruct (Z.eqb_spec r 0) as [-> | Hne]; cbn [shr_record_of_loc shr_m shr_r shr_s].
    + repeat split; lia.
    + destruct (Z.compare_spec (2 * r + 1) my); cbn [shr_record_of_loc shr_m shr_r shr_s]; repeat split; lia.
Qed.

Lemma Zdigits2_range (m lo hi : Z) :
  0 <= lo -> 0 <= hi -> 2 ^ lo <= m < 2 ^ hi -> lo < Zdigits2 m <= hi.
Proof.
  intros Hlo Hhi Hm.
  assert (Hpos : 0 < m) by (pose proof (Z.pow_pos_nonneg 2 lo); lia).
  pose proof (Zdigits2_bounds m Hpos) as Hb.
  assert (Hd : 0 < Zdigits2 m) by (destruct m; simpl; lia).
  split.
  - apply (Z.pow_lt_mono_r_iff 2); lia.
  - assert (Zdigits2 m - 1 < hi); [ | lia].
    apply (Z.pow_lt_mono_r_iff 2); lia.
Qed.


Lemma mantissa_digits (m : positive) : normal_mantissa m -> Zdigits2 (Zpos m) = 53.
Proof.
  intros Hm. apply Zdigits2_unique; [lia | exact Hm | lia].
Qed.

(** The product of two normal floats. *)
Lemma SFmul_spec (sa sb : bool) (ma mb : positive) (ea eb : Z) :
  normal_mantissa ma -> normal_mantissa mb ->
  -1074 <= ea + eb + 52 -> ea + eb + 54 <= 971 ->
  exists mr er,
    SFmul 53 1024 (S754_finite sa ma ea) (S754_finite sb mb eb)
    = S754_finite (xorb sa sb) mr er
    /\ normal_mantissa mr
    /\ ea + eb + 52 <= er <= ea + eb + 54
    /\ 2 ^ 53 * Z.abs (Zpos mr * 2 ^ (er - (ea + eb)) * 1 - Zpos ma * Zpos mb)
       <= Zpos mr * 2 ^ (er - (ea + eb)) * 1.
Proof.
  unfold normal_mantissa. intros Ha Hb Hlo Hhi.
  change (2 ^ 52) with 4503599627370496 in *.
  change (2 ^ 53) with 9007199254740992 in *.
  assert (Hd : 104 < Zdigits2 (Zpos (ma * mb)) <= 106).
  { apply Zdigits2_range; try lia. rewrite Pos2Z.inj_mul.
    change (2 ^ 104) with (4503599627370496 * 4503599627370496).
    change (2 ^ 106) with (9007199254740992 * 9007199254740992).
    split.
    - apply Z.mul_le_mono_nonneg; lia.
    - apply Z.mul_lt_mono_nonneg; lia. }
  destruct (binary_round_aux_spec (xorb sa sb) (Zpos (ma * mb)) (ea + eb)
              loc_Exact (Zpos ma * Zpos mb) 1)
    as (mr & er & E & Hm & He & Hr); try lia.
  - rewrite <- Pos2Z.inj_mul. apply inb_exact.
  - exists mr, er. cbn [SFmul]. rewrite E.
    split; [reflexivity | ]. split; [exact Hm | ]. split; [lia | exact Hr].
Qed.

(** The quotient of two normal floats. *)
Lemma SFdiv_spec (sa sb : bool) (ma mb : positive) (ea eb : Z) :
  normal_mantissa ma -> normal_mantissa mb ->
  -1074 <= ea - eb - 53 -> ea - eb - 51 <= 971 ->
  exists mr er,
    SFdiv 53 1024 (S754_finite sa ma ea) (S754_finite sb mb eb)
    = S754_finite (xorb sa sb) mr er
    /\ normal_mantissa mr
    /\ ea - eb - 53 <= er <= ea - eb - 51
    /\ 2 ^ 53 * Z.abs (Zpos mr * 2 ^ (er - (ea - eb - 53)) * Zpos mb
                       - Zpos ma * 2 ^ 53)
       <= Zpos mr * 2 ^ (er - (ea - eb - 53)) * Zpos mb.
Proof.
  intros Ha Hb Hlo Hhi.
  pose proof (mantissa_digits ma Ha) as Hda.
  pose proof (mantissa_digits mb Hb) as Hdb.
  unfold normal_mantissa in Ha, Hb.
  cbn [SFdiv]. unfold SFdiv_core_binary. rewrite Hda, Hdb.
  unfold fexp, emin.
  replace (Z.min (Z.max (53 + ea - (53 + eb) - 53) (3 - 1024 - 53)) (ea - eb))
    with (ea - eb - 53) by lia.
  replace (ea - eb - (ea - eb - 53)) with 53 by lia.
  rewrite Z.shiftl_mul_pow2 by lia.
  pose proof (Z_div_mod (Zpos ma * 2 ^ 53) (Zpos mb) eq_refl) as Hdiv.
  destruct (Z.div_eucl (Zpos ma * 2 ^ 53) (Zpos mb)) as [q r].
  destruct Hdiv as [Hq Hr].
  change (2 ^ 52) with 4503599627370496 in *.
  change (2 ^ 53) with 9007199254740992 in *.
  assert (Hqb : 4503599627370496 <= q < 18014398509481984) by nia.
  assert (Hd : 52 < Zdigits2 q <= 54).
  { apply Zdigits2_range; lia. }
  destruct (binary_round_aux_spec (xorb sa sb) q (ea - eb - 53)
              (new_location (Zpos mb) r)
              (Zpos ma * 9007199254740992) (Zpos mb))
    as (mr & er & E & Hm & He & Hrd); try lia.
  - replace (Zpos ma * 9007199254740992) with (q * Zpos mb + r) by lia.
    apply new_location_inb; lia.
  - exists mr, er. rewrite E.
    split; [reflexivity | ]. split; [exact Hm | ]. split; [lia | exact Hrd].
Qed.

Lemma shl_align_val (mx : positive) (ex ex' : Z) :
  ex' <= ex ->
  Zpos (fst (shl_align mx ex ex')) = Zpos mx * 2 ^ (ex - ex')
  /\ snd (shl_align mx ex ex') = ex'.
Proof.
  intros Hle. unfold shl_align.
  destruct (ex' - ex) as [ | d | d] eqn:Ed; try lia.
  - replace (ex - ex') with 0 by lia. cbn [fst snd]. lia.
  - cbn [fst snd]. change (Pos.iter xO mx d) with (shift_pos d mx).
    rewrite shift_pos_correct.
    replace (ex - ex') with (Zpos d) by lia.
    change (2 ^ Zpos d) with (Z.pow_pos 2 d). split; [ring | reflexivity].
Qed.

(** [binary_round] first brings a short normal_mantissa to 53 bits, which changes
    nothing of the value, and then rounds. *)
Lemma binary_round_spec (s : bool) (t : positive) (e : Z) :
  -1074 <= Zdigits2 (Zpos t) + e - 53 ->
  Zdigits2 (Zpos t) + e - 52 <= 971 ->
  exists mr er k,
    binary_round 53 1024 s t e = S754_finite s mr er
    /\ normal_mantissa mr
    /\ Zdigits2 (Zpos t) + e - 53 <= er <= Zdigits2 (Zpos t) + e - 52
    /\ 0 <= k /\ e - k <= er
    /\ 2 ^ 53 * Z.abs (Zpos mr * 2 ^ (er - (e - k)) * 1 - Zpos t * 2 ^ k)
       <= Zpos mr * 2 ^ (er - (e - k)) * 1.
Proof.
  intros Hlo Hhi. unfold binary_round.
  pose proof (Zdigits2_bounds (Zpos t) eq_refl) as Hb.
  cbn [Zdigits2] in *.
  remember (Zpos (digits2_pos t)) as d eqn:Ed.
  assert (Hd0 : 0 < d) by lia.
  unfold fexp, emin. rewrite Z.max_l by lia.
  destruct (Z_le_gt_dec 53 d) as [Hge | Hlt].
  - assert (Hal : shl_align t e (d + e - 53) = (t, e)).
    { unfold shl_align. destruct (d + e - 53 - e) eqn:E; try reflexivity. lia. }
    rewrite Hal.
    destruct (binary_round_aux_spec s (Zpos t) e loc_Exact (Zpos t) 1)
      as (mr & er & E & Hm & He & Hr); cbn [Zdigits2]; try lia.
    + apply inb_exact.
    + cbn [Zdigits2] in He. rewrite <- Ed in He.
      exists mr, er, 0. rewrite E.
      split; [reflexivity | ]. split; [exact Hm | ]. split; [lia | ].
      split; [lia | ]. split; [lia | ].
      replace (e - 0) with e by lia. change (2 ^ 0) with 1.
      rewrite (Z.mul_1_r (Zpos t)). exact Hr.
  - destruct (shl_align_val t e (d + e - 53)) as [Hv Hs]; [lia | ].
    destruct (shl_align t e (d + e - 53)) as [mz ez]. cbn [fst snd] in Hv, Hs.
    subst ez.
    replace (e - (d + e - 53)) with (53 - d) in Hv by lia.
    assert (Hmz : 2 ^ 52 <= Zpos mz < 2 ^ 53).
    { rewrite Hv.
      assert (H52 : 2 ^ 52 = 2 ^ (d - 1) * 2 ^ (53 - d)).
      { rewrite <- Z.pow_add_r by lia. f_equal. lia. }
      assert (H53 : 2 ^ 53 = 2 ^ d * 2 ^ (53 - d)).
      { rewrite <- Z.pow_add_r by lia. f_equal. lia. }
      rewrite H52, H53.
      assert (0 < 2 ^ (53 - d)) by (apply Z.pow_pos_nonneg; lia).
      split.
      - apply Z.mul_le_mono_nonneg_r; lia.
      - apply Z.mul_lt_mono_pos_r; lia. }
    pose proof (mantissa_digits mz Hmz) as Hdz.
    destruct (binary_round_aux_spec s (Zpos mz) (d + e - 53) loc_Exact
                (Zpos mz) 1)
      as (mr & er & E & Hm & He & Hr); try (rewrite Hdz; lia); try lia.
    + apply inb_exact.
    + rewrite Hdz in He.
      exists mr, er, (53 - d). rewrite E.
      split; [reflexivity | ]. split; [exact Hm | ]. split; [lia | ].
      split; [lia | ]. split; [lia | ].
      replace (e - (53 - d)) with (d + e - 53) by lia.
      rewrite <- Hv. exact Hr.
Qed.


Lemma SFadd_aligned (sa sb : bool) (ma mb : positive) (ea eb : Z) :
  SFadd 53 1024 (S754_finite sa ma ea) (S754_finite sb mb eb)
  = binary_normalize 53 1024 (aligned_sum sa sb ma mb ea eb)
      (Z.min ea eb) false.
Proof.
  cbn [SFadd]. unfold aligned_sum.
  destruct (shl_align_val ma ea (Z.min ea eb)) as [-> _]; [lia | ].
  destruct (shl_align_val mb eb (Z.min ea eb)) as [-> _]; [lia | ].
  reflexivity.
Qed.

(** The sum of two normal floats, when it is not zero. *)
Lemma SFadd_spec (sa sb : bool) (ma mb : positive) (ea eb : Z) :
  normal_mantissa ma -> normal_mantissa mb ->
  aligned_sum sa sb ma mb ea eb <> 0 ->
  -1074 <= Z.min ea eb - 52 -> Z.max ea eb + 2 <= 971 ->
  exists mr er k,
    SFadd 53 1024 (S754_finite sa ma ea) (S754_finite sb mb eb)
    = S754_finite (aligned_sum sa sb ma mb ea eb <? 0) mr er
    /\ normal_mantissa mr
    /\ Z.min ea eb - 52 <= er <= Z.max ea eb + 2
    /\ 0 <= k /\ Z.min ea eb - k <= er
    /\ 2 ^ 53 * Z.abs (Zpos mr * 2 ^ (er - (Z.min ea eb - k)) * 1
                       - Z.abs (aligned_sum sa sb ma mb ea eb) * 2 ^ k)
       <= Zpos mr * 2 ^ (er - (Z.min ea eb - k)) * 1.
Proof.
  unfold normal_mantissa. intros Ha Hb Hnz Hlo Hhi.
  rewrite SFadd_aligned.
  remember (aligned_sum sa sb ma mb ea eb) as T eqn:ET.
  remember (Z.min ea eb) as ez eqn:Ez.
  assert (HT : Z.abs T < 2 ^ (Z.max ea eb - ez + 54)).
  { subst T. unfold aligned_sum. rewrite <- Ez.
    change (2 ^ 52) with 4503599627370496 in *.
    change (2 ^ 53) with 9007199254740992 in *.
    assert (Hpa : 1 <= 2 ^ (ea - ez))
      by (pose proof (Z.pow_pos_nonneg 2 (ea - ez)); lia).
    assert (Hpb : 1 <= 2 ^ (eb - ez))
      by (pose proof (Z.pow_pos_nonneg 2 (eb - ez)); lia).
    assert (Hma : 2 ^ (ea - ez) <= 2 ^ (Z.max ea eb - ez))
      by (apply Z.pow_le_mono_r; lia).
    assert (Hmb : 2 ^ (eb - ez) <= 2 ^ (Z.max ea eb - ez))
      by (apply Z.pow_le_mono_r; lia).
    rewrite Z.pow_add_r by lia.
    change (2 ^ 54) with 18014398509481984.
    destruct sa, sb; cbn [cond_Zopp]; nia. }
  assert (Hd : forall t, Z.abs T = Zpos t ->
                         0 < Zdigits2 (Zpos t) <= Z.max ea eb - ez + 54).
  { intros t Ht. rewrite Ht in HT. split; [cbn; lia | ].
    assert (0 < Zdigits2 (Zpos t) <= Z.max ea eb - ez + 54); [ | lia].
    apply (Zdigits2_range (Zpos t) 0); lia. }
  destruct T as [ | t | t]; [congruence | | ].
  - destruct (Hd t eq_refl) as [Hd1 Hd2].
    cbn [binary_normalize].
    destruct (binary_round_spec false t ez) as (mr & er & k & E & Hm & He & Hk & Hke & Hr);
      [lia | lia | ].
    exists mr, er, k. rewrite E.
    split; [reflexivity | ]. split; [exact Hm | ]. split; [lia | ].
    split; [exact Hk | ]. split; [exact Hke | exact Hr].
  - destruct (Hd t eq_refl) as [Hd1 Hd2].
    cbn [binary_normalize].
    destruct (binary_round_spec true t ez) as (mr & er & k & E & Hm & He & Hk & Hke & Hr);
      [lia | lia | ].
    exists mr, er, k. rewrite E.
    split; [reflexivity | ]. split; [exact Hm | ]. split; [lia | ].
    split; [exact Hk | ]. split; [exact Hke | exact Hr].
Qed.

Lemma SFadd_zero (sa sb : bool) (ma mb : positive) (ea eb : Z) :
  aligned_sum sa sb ma mb ea eb = 0 ->
  SFadd 53 1024 (S754_finite sa ma ea) (S754_finite sb mb eb)
  = S754_zero false.
Proof. intros HT. rewrite SFadd_aligned, HT. reflexivity. Qed.


End RoundingToNearest.

Section RoundingError.
Local Open Scope R_scope.

Lemma IZR_pow2 (k : Z) : (0 <= k)%Z -> IZR (2 ^ k) = powerRZ 2 k.
Proof.
  destruct k as [ | p | p]; [reflexivity | | lia]. intros _.
  change (2 ^ Zpos p)%Z with (Z.pow_pos 2 p). apply Zpower_pos_powerRZ.
Qed.

Lemma powerRZ2_add (a b : Z) : powerRZ 2 (a + b) = powerRZ 2 a * powerRZ 2 b.
Proof. apply powerRZ_add. lra. Qed.

Lemma powerRZ2_pos (a : Z) : 0 < powerRZ 2 a.
Proof. apply powerRZ_lt. lra. Qed.

Lemma powerRZ2_split (a b : Z) : powerRZ 2 a = powerRZ 2 (a - b) * powerRZ 2 b.
Proof. rewrite <- powerRZ2_add. f_equal. lia. Qed.

Lemma val_pos (m : positive) (e : Z) : 0 < val m e.
Proof.
  unfold val. apply Rmult_lt_0_compat; [apply IZR_lt; lia | apply powerRZ2_pos].
Qed.

Lemma F2R_finite (s : bool) (m : positive) (e : Z) :
  F2R (S754_finite s m e) = sgn s * val m e.
Proof. unfold val, sgn. cbn [F2R]. ring. Qed.

Lemma sgn_xorb (s t : bool) : sgn (xorb s t) = sgn s * sgn t.
Proof. destruct s, t; cbn [xorb sgn]; ring. Qed.

Lemma sgn_sqr (s : bool) : sgn s * sgn s = 1.
Proof. destruct s; cbn [sgn]; ring. Qed.

Lemma Rabs_sgn (s : bool) (x : R) : Rabs (sgn s * x) = Rabs x.
Proof.
  destruct s; cbn [sgn].
  - replace (-1 * x) with (- x) by ring. apply Rabs_Ropp.
  - now rewrite Rmult_1_l.
Qed.

(** The integer bound of [binary_round_aux_spec] read on the real values. *)
Lemma rounds_near (mr : positive) (er ex N D : Z) (x : R) :
  (0 < D)%Z -> (ex <= er)%Z ->
  (2 ^ 53 * Z.abs (Zpos mr * 2 ^ (er - ex) * D - N)
   <= Zpos mr * 2 ^ (er - ex) * D)%Z ->
  x = IZR N / IZR D * powerRZ 2 ex ->
  near (val mr er) x.
Proof.
  intros HD Hle Hr ->. unfold val.
  apply IZR_le in Hr.
  change (2 ^ 53)%Z with 9007199254740992%Z in Hr.
  rewrite !mult_IZR, abs_IZR, minus_IZR, !mult_IZR in Hr.
  rewrite IZR_pow2 in Hr by lia.
  rewrite (powerRZ2_split er ex).
  assert (Hd : 0 < IZR D) by (apply IZR_lt; exact HD).
  pose proof (powerRZ2_pos ex) as Hc.
  remember (powerRZ 2 ex) as c eqn:Ec.
  remember (powerRZ 2 (er - ex)) as K eqn:EK.
  remember (IZR (Zpos mr)) as m eqn:Em.
  remember (IZR D) as d eqn:Ed.
  remember (IZR N) as n eqn:En.
  assert (He : 0 < c / d) by (apply Rdiv_lt_0_compat; assumption).
  assert (Hv : m * (K * c) = (m * K * d) * (c / d)) by (field; lra).
  assert (Hx : n / d * c = n * (c / d)) by (field; lra).
  unfold near, unit_roundoff. change (2 ^ 53)%Z with 9007199254740992%Z.
  rewrite Hv, Hx.
  assert (Hn : m * K * d * (1 - / 9007199254740992) <= n
               <= m * K * d * (1 + / 9007199254740992)).
  { remember (m * K * d) as V eqn:EV.
    unfold Rabs in Hr. destruct (Rcase_abs (V - n)); lra. }
  destruct Hn as [Hn1 Hn2].
  split.
  - replace (m * K * d * (c / d) * (1 - / 9007199254740992))
      with (m * K * d * (1 - / 9007199254740992) * (c / d)) by ring.
    apply Rmult_le_compat_r; lra.
  - replace (m * K * d * (c / d) * (1 + / 9007199254740992))
      with (m * K * d * (1 + / 9007199254740992) * (c / d)) by ring.
    apply Rmult_le_compat_r; lra.
Qed.

Lemma unit_roundoff_small : 0 < unit_roundoff /\ (1 + unit_roundoff) <= (1 + 8 * unit_roundoff) * ((1 - unit_roundoff) * (1 - unit_roundoff) * (1 - unit_roundoff))
                /\ (1 - 8 * unit_roundoff) * ((1 + unit_roundoff) * (1 + unit_roundoff) * (1 + unit_roundoff)) <= 1 - unit_roundoff
                /\ 8 * unit_roundoff = / 2 ^ 50.
Proof.
  unfold unit_roundoff. change (2 ^ 53)%Z with 9007199254740992%Z.
  repeat split; lra.
Qed.

(** Four roundings, of the product, its double, the sum and the quotient,
    leave the harmonic mean within a relative error of [2^-50]. *)
Lemma harmonic_near (X T P P2 S R : R) :
  0 < X -> 0 < T -> 0 < P -> 0 < P2 -> 0 < S -> 0 < R ->
  near P X -> near P2 (2 * P) -> near S T -> near R (P2 / S) ->
  Rabs (R - 2 * X / T) <= 2 * X / T / 2 ^ 50.
Proof.
  intros HX HT HP HP2 HS HR [HPl HPu] [HP2l HP2u] [HSl HSu] [HRl HRu].
  destruct unit_roundoff_small as (Hu0 & Hup & Hlo & H8).
  assert (Hu1 : unit_roundoff < / 16).
  { unfold unit_roundoff. change (2 ^ 53)%Z with 9007199254740992%Z. lra. }
  remember (1 - unit_roundoff) as t eqn:Et. remember (1 + unit_roundoff) as s eqn:Es.
  assert (Ht : 0 < t) by lra. assert (Hs : 0 < s) by lra.
  assert (HRl' : R * t * S <= P2).
  { apply (Rmult_le_compat_r S) in HRl; [ | lra].
    replace (P2 / S * S) with P2 in HRl by (field; lra). exact HRl. }
  assert (HRu' : P2 <= R * s * S).
  { apply (Rmult_le_compat_r S) in HRu; [ | lra].
    replace (P2 / S * S) with P2 in HRu by (field; lra). exact HRu. }
  assert (Hupper : R * T * (t * t * t) <= 2 * X * s).
  { apply Rle_trans with (R * (t * t * t) * (S * s)).
    - replace (R * T * (t * t * t)) with (R * (t * t * t) * T) by ring.
      apply Rmult_le_compat_l; [ | lra].
      repeat apply Rmult_le_pos; lra.
    - apply Rle_trans with (P2 * (t * t * s)).
      + replace (R * (t * t * t) * (S * s)) with (R * t * S * (t * t * s)) by ring.
        apply Rmult_le_compat_r; [ | exact HRl'].
        repeat apply Rmult_le_pos; lra.
      + apply Rle_trans with (2 * P * (t * s)).
        * replace (P2 * (t * t * s)) with (P2 * t * (t * s)) by ring.
          apply Rmult_le_compat_r; [ | exact HP2l].
          repeat apply Rmult_le_pos; lra.
        * replace (2 * P * (t * s)) with (P * t * (2 * s)) by ring.
          replace (2 * X * s) with (X * (2 * s)) by ring.
          apply Rmult_le_compat_r; [ | exact HPl]. lra. }
  assert (Hlower : 2 * X * t <= R * T * (s * s * s)).
  { apply Rle_trans with (R * (s * s * s) * (S * t)).
    - apply Rle_trans with (P2 * (s * s * t)).
      + apply Rle_trans with (2 * P * (s * t)).
        * replace (2 * X * t) with (X * (2 * t)) by ring.
          replace (2 * P * (s * t)) with (P * s * (2 * t)) by ring.
          apply Rmult_le_compat_r; [ | exact HPu]. lra.
        * replace (P2 * (s * s * t)) with (P2 * s * (s * t)) by ring.
          apply Rmult_le_compat_r; [ | exact HP2u].
          repeat apply Rmult_le_pos; lra.
      + replace (R * (s * s * s) * (S * t)) with (R * s * S * (s * s * t)) by ring.
        apply Rmult_le_compat_r; [ | exact HRu'].
        repeat apply Rmult_le_pos; lra.
    - replace (R * T * (s * s * s)) with (R * (s * s * s) * T) by ring.
      apply Rmult_le_compat_l; [ | lra].
      repeat apply Rmult_le_pos; lra. }
  remember (2 * X / T) as H eqn:EH.
  assert (HH : H * T = 2 * X) by (subst H; field; lra).
  assert (Hpos : 0 < H).
  { subst H. apply Rdiv_lt_0_compat; lra. }
  assert (Hub : R <= H * (1 + 8 * unit_roundoff)).
  { apply (Rmult_le_reg_r (T * (t * t * t))).
    - repeat apply Rmult_lt_0_compat; lra.
    - apply Rle_trans with (2 * X * s); [lra | ].
      replace (H * (1 + 8 * unit_roundoff) * (T * (t * t * t)))
        with (2 * X * ((1 + 8 * unit_roundoff) * (t * t * t)))
        by (rewrite <- HH; ring).
      apply Rmult_le_compat_l; lra. }
  assert (Hlb : H * (1 - 8 * unit_roundoff) <= R).
  { apply (Rmult_le_reg_r (T * (s * s * s))).
    - repeat apply Rmult_lt_0_compat; lra.
    - apply Rle_trans with (2 * X * t); [ | lra].
      replace (H * (1 - 8 * unit_roundoff) * (T * (s * s * s)))
        with (2 * X * ((1 - 8 * unit_roundoff) * (s * s * s)))
        by (rewrite <- HH; ring).
      apply Rmult_le_compat_l; lra. }
  unfold Rdiv at 1. rewrite <- H8.
  apply Rabs_le. split; lra.
Qed.

Lemma mul_near (sa sb : bool) (ma mb : positive) (ea eb : Z) :
  normal_mantissa ma -> normal_mantissa mb ->
  (-1074 <= ea + eb + 52)%Z -> (ea + eb + 54 <= 971)%Z ->
  exists mr er,
    SFmul 53 1024 (S754_finite sa ma ea) (S754_finite sb mb eb)
    = S754_finite (xorb sa sb) mr er
    /\ normal_mantissa mr
    /\ (ea + eb + 52 <= er <= ea + eb + 54)%Z
    /\ near (val mr er) (val ma ea * val mb eb).
Proof.
  intros Hma Hmb Hlo Hhi.
  destruct (SFmul_spec sa sb ma mb ea eb Hma Hmb Hlo Hhi)
    as (mr & er & E & Hm & He & Hr).
  exists mr, er. split; [exact E | ]. split; [exact Hm | ].
  split; [exact He | ].
  apply (rounds_near mr er (ea + eb) (Zpos ma * Zpos mb) 1);
    [lia | lia | exact Hr | ].
  unfold val. rewrite mult_IZR, powerRZ2_add. field.
Qed.

Lemma div_near (sa sb : bool) (ma mb : positive) (ea eb : Z) :
  normal_mantissa ma -> normal_mantissa mb ->
  (-1074 <= ea - eb - 53)%Z -> (ea - eb - 51 <= 971)%Z ->
  exists mr er,
    SFdiv 53 1024 (S754_finite sa ma ea) (S754_finite sb mb eb)
    = S754_finite (xorb sa sb) mr er
    /\ normal_mantissa mr
    /\ (ea - eb - 53 <= er <= ea - eb - 51)%Z
    /\ near (val mr er) (val ma ea / val mb eb).
Proof.
  intros Hma Hmb Hlo Hhi.
  destruct (SFdiv_spec sa sb ma mb ea eb Hma Hmb Hlo Hhi)
    as (mr & er & E & Hm & He & Hr).
  exists mr, er. split; [exact E | ]. split; [exact Hm | ].
  split; [exact He | ].
  apply (rounds_near mr er (ea - eb - 53) (Zpos ma * 2 ^ 53) (Zpos mb));
    [lia | lia | exact Hr | ].
  unfold val. rewrite mult_IZR, IZR_pow2 by lia.
  rewrite (powerRZ2_split ea (eb + 53)), (powerRZ2_add eb 53).
  replace (ea - (eb + 53))%Z with (ea - eb - 53)%Z by lia.
  pose proof (powerRZ2_pos eb). pose proof (powerRZ2_pos 53).
  assert (0 < IZR (Zpos mb)) by (apply IZR_lt; lia).
  field. split; lra.
Qed.

Lemma aligned_sum_value (sa sb : bool) (ma mb : positive) (ea eb : Z) :
  sgn sa * val ma ea + sgn sb * val mb eb
  = IZR (aligned_sum sa sb ma mb ea eb) * powerRZ 2 (Z.min ea eb).
Proof.
  unfold aligned_sum, val.
  rewrite (powerRZ2_split ea (Z.min ea eb)).
  rewrite (powerRZ2_split eb (Z.min ea eb)).
  rewrite plus_IZR.
  destruct sa, sb; cbn [cond_Zopp sgn];
    rewrite ?opp_IZR, !mult_IZR, !IZR_pow2 by lia; ring.
Qed.

Lemma add_near (sa sb : bool) (ma mb : positive) (ea eb : Z) :
  normal_mantissa ma -> normal_mantissa mb ->
  aligned_sum sa sb ma mb ea eb <> 0%Z ->
  (-1074 <= Z.min ea eb - 52)%Z -> (Z.max ea eb + 2 <= 971)%Z ->
  exists sr mr er,
    SFadd 53 1024 (S754_finite sa ma ea) (S754_finite sb mb eb)
    = S754_finite sr mr er
    /\ normal_mantissa mr
    /\ (Z.min ea eb - 52 <= er <= Z.max ea eb + 2)%Z
    /\ near (val mr er) (Rabs (sgn sa * val ma ea + sgn sb * val mb eb))
    /\ sgn sa * val ma ea + sgn sb * val mb eb
       = sgn sr * Rabs (sgn sa * val ma ea + sgn sb * val mb eb).
Proof.
  intros Hma Hmb Hnz Hlo Hhi.
  destruct (SFadd_spec sa sb ma mb ea eb Hma Hmb Hnz Hlo Hhi)
    as (mr & er & k & E & Hm & He & Hk & Hke & Hr).
  rewrite aligned_sum_value.
  remember (aligned_sum sa sb ma mb ea eb) as T eqn:ET.
  remember (Z.min ea eb) as ez eqn:Ez.
  pose proof (powerRZ2_pos ez) as Hp.
  assert (Habs : Rabs (IZR T * powerRZ 2 ez) = IZR (Z.abs T) * powerRZ 2 ez).
  { rewrite Rabs_mult, (Rabs_right (powerRZ 2 ez)) by lra.
    now rewrite Rabs_Zabs. }
  exists (T <? 0)%Z, mr, er. split; [exact E | ]. split; [exact Hm | ].
  split; [exact He | ]. rewrite Habs. split.
  - apply (rounds_near mr er (ez - k) (Z.abs T * 2 ^ k) 1);
      [lia | lia | exact Hr | ].
    rewrite mult_IZR, IZR_pow2 by lia.
    rewrite (powerRZ2_split ez (ez - k)).
    replace (ez - (ez - k))%Z with k by lia. field.
  - destruct (Z.ltb_spec T 0) as [Hneg | Hpos]; cbn [sgn].
    + rewrite Z.abs_neq by lia. rewrite opp_IZR. ring.
    + rewrite Z.abs_eq by lia. ring.
Qed.

Lemma ordinary_inv (s : bool) (m : positive) (e : Z) :
  ordinary (S754_finite s m e) = true ->
  normal_mantissa m /\ (-562 <= e <= 457)%Z.
Proof.
  cbn [ordinary]. intros H.
  apply andb_prop in H; destruct H as [H He2].
  apply andb_prop in H; destruct H as [H He1].
  apply andb_prop in H; destruct H as [Hm1 Hm2].
  unfold normal_mantissa. split; lia.
Qed.

Lemma of_int_2 :
  PyFloat.of_int 2 = S754_finite false 4503599627370496 (-51)
  /\ normal_mantissa 4503599627370496
  /\ val 4503599627370496 (-51) = 2.
Proof.
  split; [reflexivity | split].
  - unfold normal_mantissa.
    change (2 ^ 52)%Z with 4503599627370496%Z.
    change (2 ^ 53)%Z with 9007199254740992%Z. lia.
  - unfold val. change (-51)%Z with (- (51))%Z.
    rewrite powerRZ_neg', <- IZR_pow2 by lia.
    change (2 ^ 51)%Z with 2251799813685248%Z. lra.
Qed.

Lemma harmonic_mean_diag (x : R) : x <> 0 -> harmonic_mean x x = x.
Proof.
  intros Hx. unfold harmonic_mean. field.
  intros Hsum. apply Hx. lra.
Qed.

End RoundingError.

(** ** The combined accuracy *)

Example model_accuracy_0_5 :
  model_accuracy (PyFloat.lit 5 1) (PyFloat.lit 5 1) = Ok (PyFloat.lit 5 1).
Proof. reflexivity. Qed.

Example model_accuracy_0_91_0_89 :
  model_accuracy (PyFloat.lit 91 2) (PyFloat.lit 89 2)
  = Ok (S754_finite false 8105478529349700 (-53)).
Proof. reflexivity. Qed.

(** C7, as stated: for train and test accuracy 0.8 the combined accuracy is
    not 0.8 but the next float above it, 0.8000000000000002. *)
Lemma model_accuracy_0_8_is_not_0_8 :
  model_accuracy (PyFloat.lit 8 1) (PyFloat.lit 8 1)
    = Ok (S754_finite false 7205759403792795 (-53))
  /\ model_accuracy (PyFloat.lit 8 1) (PyFloat.lit 8 1) <> Ok (PyFloat.lit 8 1)
  /\ (forall a, model_accuracy (PyFloat.lit 8 1) (PyFloat.lit 8 1) = Ok a ->
                PyFloat.eqb a (PyFloat.lit 8 1) = false).
Proof.
  split; [reflexivity | split].
  - intros Heq; vm_compute in Heq; discriminate.
  - intros a Ha; vm_compute in Ha; inversion Ha; reflexivity.
Qed.

(** C7, amended: for normal train and test accuracies of either sign, of
    size from [2^-510] up to [2^510] and with a sum that is not zero, the
    combined accuracy is computed without error and is the harmonic mean
    [2*train_acc*test_acc/(train_acc+test_acc)] of their real values up to a
    relative error of [2^-50], the four roundings of the float operations;
    so for equal train and test accuracy it is the common value up to that
    relative error (and not always that value). *)
Theorem model_accuracy_near_harmonic_mean (train_acc test_acc : float) :
  ordinary train_acc = true -> ordinary test_acc = true ->
  PyFloat.eqb (PyFloat.add train_acc test_acc) PyFloat.zero = false ->
  exists a,
    model_accuracy train_acc test_acc = Ok a
    /\ PyFloat.is_finite a = true
    /\ (Rabs (F2R a - harmonic_mean (F2R train_acc) (F2R test_acc))
        <= Rabs (harmonic_mean (F2R train_acc) (F2R test_acc)) / 2 ^ 50)%R
    /\ (train_acc = test_acc ->
        (Rabs (F2R a - F2R train_acc) <= Rabs (F2R train_acc) / 2 ^ 50)%R).
Proof.
  destruct train_acc as [ | | | sa ma ea]; try discriminate.
  destruct test_acc as [ | | | sb mb eb]; try discriminate.
  intros Htrain Htest Hsum.
  destruct (ordinary_inv _ _ _ Htrain) as [Hma Hea].
  destruct (ordinary_inv _ _ _ Htest) as [Hmb Heb].
  destruct of_int_2 as (E2 & Hm2 & V2).
  assert (Hnz : aligned_sum sa sb ma mb ea eb <> 0%Z).
  { intros HT. unfold PyFloat.add, PyFloat.prec, PyFloat.emax in Hsum.
    rewrite (SFadd_zero _ _ _ _ _ _ HT) in Hsum. discriminate. }
  destruct (mul_near sa sb ma mb ea eb Hma Hmb) as (mP & eP & EP & HmP & HeP & NP);
    [lia | lia | ].
  destruct (mul_near false (xorb sa sb) _ mP (-51) eP Hm2 HmP)
    as (mQ & eQ & EQ & HmQ & HeQ & NQ); [lia | lia | ].
  destruct (add_near sa sb ma mb ea eb Hma Hmb Hnz)
    as (sS & mS & eS & ES & HmS & HeS & NS & HsS); [lia | lia | ].
  destruct (div_near (xorb false (xorb sa sb)) sS mQ mS eQ eS HmQ HmS)
    as (mR & eR & ER & HmR & HeR & NR); [lia | lia | ].
  rewrite V2 in NQ.
  assert (Hcomp : model_accuracy (S754_finite sa ma ea) (S754_finite sb mb eb)
                  = Ok (S754_finite (xorb (xorb false (xorb sa sb)) sS) mR eR)).
  { unfold model_accuracy, truediv, PyFloat.mul, PyFloat.add, PyFloat.prec,
      PyFloat.emax.
    rewrite E2, EP, EQ, ES, ER. reflexivity. }
  exists (S754_finite (xorb (xorb false (xorb sa sb)) sS) mR eR).
  split; [exact Hcomp | ]. split; [reflexivity | ].
  rewrite !F2R_finite.
  remember (sgn sa * val ma ea + sgn sb * val mb eb)%R as sum eqn:Esum.
  assert (HT : (0 < Rabs sum)%R).
  { apply Rabs_pos_lt. rewrite Esum, aligned_sum_value.
    apply Rmult_integral_contrapositive_currified.
    - apply not_0_IZR. exact Hnz.
    - pose proof (powerRZ2_pos (Z.min ea eb)). lra. }
  pose proof (val_pos ma ea) as PA. pose proof (val_pos mb eb) as PB.
  assert (HX : (0 < val ma ea * val mb eb)%R)
    by (apply Rmult_lt_0_compat; assumption).
  pose proof (harmonic_near _ _ _ _ _ _ HX HT (val_pos mP eP) (val_pos mQ eQ)
                (val_pos mS eS) (val_pos mR eR) NP NQ NS NR) as Hnear.
  remember (2 * (val ma ea * val mb eb) / Rabs sum)%R as H0 eqn:EH0.
  assert (HH0 : (0 < H0)%R).
  { rewrite EH0. apply Rdiv_lt_0_compat; lra. }
  assert (Hmean : harmonic_mean (sgn sa * val ma ea) (sgn sb * val mb eb)
                  = (sgn (xorb (xorb false (xorb sa sb)) sS) * H0)%R).
  { unfold harmonic_mean. rewrite <- Esum, HsS, EH0.
    rewrite !sgn_xorb.
    destruct sS; cbn [sgn]; field; lra. }
  assert (Hbound :
            (Rabs (sgn (xorb (xorb false (xorb sa sb)) sS) * val mR eR
                   - harmonic_mean (sgn sa * val ma ea) (sgn sb * val mb eb))
             <= Rabs (harmonic_mean (sgn sa * val ma ea) (sgn sb * val mb eb))
                / 2 ^ 50)%R).
  { rewrite Hmean, <- Rmult_minus_distr_l, !Rabs_sgn.
    rewrite (Rabs_right H0) by lra. exact Hnear. }
  split; [exact Hbound | ].
  intros Heq. injection Heq as <- <- <-.
  rewrite harmonic_mean_diag in Hbound; [exact Hbound | ].
  destruct sa; cbn [sgn]; lra.
Qed.

(** The witness of [model_accuracy_near_harmonic_mean]: train accuracy 0.91
    and test accuracy 0.89. *)
Lemma model_accuracy_near_harmonic_mean_witness :
  exists a,
    model_accuracy (PyFloat.lit 91 2) (PyFloat.lit 89 2) = Ok a
    /\ PyFloat.is_finite a = true
    /\ (Rabs (F2R a - harmonic_mean (F2R (PyFloat.lit 91 2))
                                    (F2R (PyFloat.lit 89 2)))
        <= Rabs (harmonic_mean (F2R (PyFloat.lit 91 2))
                               (F2R (PyFloat.lit 89 2))) / 2 ^ 50)%R
    /\ (PyFloat.lit 91 2 = PyFloat.lit 89 2 ->
        (Rabs (F2R a - F2R (PyFloat.lit 91 2))
         <= Rabs (F2R (PyFloat.lit 91 2)) / 2 ^ 50)%R).
Proof.
  apply (model_accuracy_near_harmonic_mean (PyFloat.lit 91 2)
           (PyFloat.lit 89 2)); reflexivity.
Defined.

(** ** Making a dict *)

Example dict_of_two_character_strings :
  dict (YSeq [YStr "ab"; YStr "cd"]) = Ok (YMap [("a", YStr "b"); ("c", YStr "d")]).
Proof. reflexivity. Qed.

Example dict_of_pairs :
  dict (YSeq [YSeq [YStr "cv"; YInt 3]; YSeq [YStr "verbose"; YInt 1];
              YSeq [YStr "cv"; YInt 5]])
  = Ok (YMap [("cv", YInt 5); ("verbose", YInt 1)]).
Proof. reflexivity. Qed.

Example dict_of_scalars :
  dict (YStr EmptyString) = Ok (YMap [])
  /\ dict (YStr "ab") = Raise (ValueError "dictionary update sequence element")
  /\ dict (YInt 3) = Raise (TypeError "object is not iterable")
  /\ dict YNull = Raise (TypeError "object is not iterable").
Proof. repeat split. Qed.

(** ** The whole pipeline *)

(** On the two-descriptor configuration [get_best_model] selects nothing: the
    search results it hands to the selection are [None], which has no
    [best_score]. *)
Example get_best_model_two_descriptors :
  (self <- ModelFactory_init Demo.two_models ;;
   get_best_model self true tt (PyFloat.lit 6 1))
  = Raise (HousingException (HousingException (AttributeError "best_score"))).
Proof. reflexivity. Qed.

(** The sample configuration is accepted by the factory, and its only
    descriptor names a module that cannot be imported. *)
Example model_config_loads :
  exists self,
    ModelFactory_init model_config = Ok self
    /\ keys (models_initialisation_config self) = Ok ["module_0"]
    /\ get_initialised_model_list self
       = Raise (HousingException
                  (HousingException (ModuleNotFoundError "module_of_model"))).
Proof. eexists; repeat split. Qed.

(** * Further properties of the code *)

(** ** Selection and lookup *)

Section SelectionMore.
Context `{Toolkit}.

(** X1: on a non-empty list the selection is decided by the first entry
    alone: [None] there has no [best_score], a search result is returned
    when its score is strictly above [base_accuracy], and the call fails
    otherwise; the entries after the first never matter. *)
Theorem select_best_decided_by_first_entry
    (entry : option GridSearchedBestModel.t)
    (rest : list (option GridSearchedBestModel.t)) (base_accuracy : float) :
  get_best_model_from_grid_searched_best_model_list (entry :: rest) base_accuracy
  = match entry with
    | None => Raise (HousingException (AttributeError "best_score"))
    | Some r =>
        if PyFloat.lt base_accuracy (GridSearchedBestModel.best_score r)
        then Ok (Some r)
        else Raise (HousingException (NoneOfTheModelHasBaseAccuracy base_accuracy))
    end.
Proof.
  unfold get_best_model_from_grid_searched_best_model_list.
  rewrite for_in_first by (intros s'; apply select_step_stops).
  destruct entry as [r | ]; [ | reflexivity].
  unfold select_step; simpl.
  now destruct (PyFloat.lt base_accuracy (GridSearchedBestModel.best_score r)).
Qed.

(** X2: a search result that is returned is the first entry of the list and
    its score is strictly above [base_accuracy]. *)
Theorem select_best_returns_first_above_floor
    (l : list (option GridSearchedBestModel.t)) (base_accuracy : float)
    (r : GridSearchedBestModel.t) :
  get_best_model_from_grid_searched_best_model_list l base_accuracy = Ok (Some r) ->
  (exists rest, l = Some r :: rest)
  /\ PyFloat.lt base_accuracy (GridSearchedBestModel.best_score r) = true.
Proof.
  destruct l as [ | [r' | ] rest]; try discriminate.
  rewrite select_first_only.
  destruct (PyFloat.lt base_accuracy (GridSearchedBestModel.best_score r')) eqn:Hlt;
    [ | discriminate].
  intros Hr; inversion Hr; subst. split; [now exists rest | exact Hlt].
Qed.

(** X3: [get_model_detail] never fails; it returns the first detail with the
    serial number asked for, and [None] when there is none. *)
Theorem get_model_detail_finds_first (model_details : list InitialisedModelDetail.t)
    (model_serial_number : string) :
  get_model_detail model_details model_serial_number
  = Ok (find (fun d => String.eqb (InitialisedModelDetail.model_serial_number d)
                                  model_serial_number) model_details).
Proof.
  unfold get_model_detail.
  induction model_details as [ | d l IH]; simpl; [reflexivity | ].
  destruct (String.eqb (InitialisedModelDetail.model_serial_number d)
                       model_serial_number); [reflexivity | exact IH].
Qed.

End SelectionMore.

(** The witness of [select_best_returns_first_above_floor]: scores 0.9 and
    0.5 over the floor 0.6. *)
Lemma select_best_returns_first_above_floor_witness :
  (exists rest,
     [Some (Demo.searched "module_0" (PyFloat.lit 9 1));
      Some (Demo.searched "module_1" (PyFloat.lit 5 1))]
     = Some (Demo.searched "module_0" (PyFloat.lit 9 1)) :: rest)
  /\ PyFloat.lt (PyFloat.lit 6 1)
       (GridSearchedBestModel.best_score
          (Demo.searched "module_0" (PyFloat.lit 9 1))) = true.
Proof.
  apply (select_best_returns_first_above_floor
           [Some (Demo.searched "module_0" (PyFloat.lit 9 1));
            Some (Demo.searched "module_1" (PyFloat.lit 5 1))]
           (PyFloat.lit 6 1)).
  reflexivity.
Defined.

(** ** Resolving classes and building the factory *)

Section ConstructionFacts.
Context `{Toolkit}.

(** X6: constructing the factory from a mapping that lacks one of the keys
    it reads fails with the bare [KeyError] of the first missing key, in the
    order [model_selection], [grid_search], and then [module], [class] and
    [params] of the grid-search entry; no [HousingException] wraps it. *)
Theorem ModelFactory_init_missing_key (entries : list (string * yaml))
    (key : string) :
  (key = MODEL_SELECTION_KEY /\ assoc MODEL_SELECTION_KEY entries = None)
  \/ (key = GRID_SEARCH_KEY
      /\ assoc MODEL_SELECTION_KEY entries <> None
      /\ assoc GRID_SEARCH_KEY entries = None)
  \/ (exists grid_search,
        assoc MODEL_SELECTION_KEY entries <> None
        /\ assoc GRID_SEARCH_KEY entries = Some (YMap grid_search)
        /\ ((key = MODULE_KEY /\ assoc MODULE_KEY grid_search = None)
            \/ (key = CLASS_KEY
                /\ assoc MODULE_KEY grid_search <> None
                /\ assoc CLASS_KEY grid_search = None)
            \/ (key = PARAM_KEY
                /\ assoc MODULE_KEY grid_search <> None
                /\ assoc CLASS_KEY grid_search <> None
                /\ assoc PARAM_KEY grid_search = None))) ->
  ModelFactory_init (YMap entries) = Raise (KeyError key).
Proof.
  unfold ModelFactory_init, bind, getitem.
  intros [[-> Hsel] | [[-> [Hsel Hgs]] | (gs & Hsel & Hgs & Hkey)]].
  - now rewrite Hsel.
  - destruct (assoc MODEL_SELECTION_KEY entries); [ | congruence].
    now rewrite Hgs.
  - destruct (assoc MODEL_SELECTION_KEY entries); [ | congruence].
    rewrite Hgs.
    destruct Hkey as [[-> Hm] | [[-> [Hm Hc]] | [-> [Hm [Hc Hp]]]]].
    + now rewrite Hm.
    + destruct (assoc MODULE_KEY gs); [ | congruence]. now rewrite Hc.
    + destruct (assoc MODULE_KEY gs); [ | congruence].
      destruct (assoc CLASS_KEY gs); [ | congruence]. now rewrite Hp.
Qed.

End ConstructionFacts.

(** The witness of [ModelFactory_init_missing_key]: the sample configuration
    without the class of its grid-search entry. *)
Lemma ModelFactory_init_missing_key_witness :
  ModelFactory_init
    (YMap [(GRID_SEARCH_KEY, YMap [(MODULE_KEY, YStr "sklearn.model_selection");
                                   (PARAM_KEY, YMap [("cv", YInt 3)])]);
           (MODEL_SELECTION_KEY, YMap [])])
  = Raise (KeyError CLASS_KEY).
Proof.
  apply (ModelFactory_init_missing_key
           [(GRID_SEARCH_KEY, YMap [(MODULE_KEY, YStr "sklearn.model_selection");
                                    (PARAM_KEY, YMap [("cv", YInt 3)])]);
            (MODEL_SELECTION_KEY, YMap [])] CLASS_KEY).
  right; right.
  exists [(MODULE_KEY, YStr "sklearn.model_selection");
          (PARAM_KEY, YMap [("cv", YInt 3)])].
  split; [discriminate | split; [reflexivity | ]].
  right; left. split; [reflexivity | split; [discriminate | reflexivity]].
Defined.

(** ** Initialising the models *)

Section InitialisationFacts.
Context `{Toolkit}.

Lemma initialise_step_detail (serial : string)
    (l : list InitialisedModelDetail.t) (self : ModelFactory) :
  initialise_step serial (l, self)
  = (descriptor <~ getitem (models_initialisation_config self) serial ;;
     detail <~ initialise_detail serial descriptor ;;
     Return (Some (l ++ [detail]), set_initialised_model_list self (l ++ [detail]))).
Proof.
  unfold initialise_step, initialise_detail, cbind, bind.
  destruct (getitem (models_initialisation_config self) serial) as [d | ];
    [ | reflexivity].
  destruct (getitem d MODULE_KEY) as [m | ]; [ | reflexivity].
  destruct (getitem d CLASS_KEY) as [c | ]; [ | reflexivity].
  destruct (class_for_name m c) as [ref | ]; [ | reflexivity].
  destruct (construct ref) as [model | ]; [ | reflexivity].
  destruct (contains d PARAM_KEY).
  - destruct (getitem d PARAM_KEY) as [p | ]; [ | reflexivity].
    destruct (dict p) as [pd | ]; [ | reflexivity].
    destruct (update_property_of_class model pd); [ | reflexivity].
    now destruct (getitem d SEARCH_PARAM_GRID_KEY).
  - now destruct (getitem d SEARCH_PARAM_GRID_KEY).
Qed.

(** The result is the one-entry list built from the first descriptor, stored
    in the factory, or the failure of building it. *)
Lemma get_initialised_model_list_unfold
    (self : ModelFactory) (serial : string) (descriptor : yaml)
    (rest : list (string * yaml)) :
  models_initialisation_config self = YMap ((serial, descriptor) :: rest) ->
  get_initialised_model_list self
  = match initialise_detail serial descriptor with
    | Ok detail => Ok (Some [detail], set_initialised_model_list self [detail])
    | Raise e => Raise (HousingException e)
    end.
Proof.
  intros Hsel; unfold get_initialised_model_list.
  rewrite Hsel; cbn [keys cbind map fst].
  rewrite for_in_first by (intros s'; apply initialise_step_stops).
  rewrite initialise_step_detail, Hsel; cbn [getitem assoc].
  rewrite String.eqb_refl; cbn [cbind].
  now destruct (initialise_detail serial descriptor).
Qed.

(** What a normal return of [get_initialised_model_list] can be. *)
Lemma get_initialised_model_list_cases (self self' : ModelFactory)
    (r : option (list InitialisedModelDetail.t)) :
  get_initialised_model_list self = Ok (r, self') ->
  (models_initialisation_config self = YMap [] /\ r = None /\ self' = self)
  \/ (exists serial descriptor rest detail,
        models_initialisation_config self = YMap ((serial, descriptor) :: rest)
        /\ initialise_detail serial descriptor = Ok detail
        /\ r = Some [detail]
        /\ self' = set_initialised_model_list self [detail]).
Proof.
  destruct (models_initialisation_config self) as [ | | | | | | entries] eqn:Hsel;
    try (unfold get_initialised_model_list; rewrite Hsel; discriminate).
  destruct entries as [ | [serial descriptor] rest].
  - unfold get_initialised_model_list; rewrite Hsel; simpl.
    intros Hr; inversion Hr; subst. now left.
  - rewrite (get_initialised_model_list_unfold _ _ _ _ Hsel).
    destruct (initialise_detail serial descriptor) as [detail | ] eqn:Hdetail;
      [ | discriminate].
    intros Hr; inversion Hr; subst. right.
    now exists serial, descriptor, rest, detail.
Qed.

(** X7: the descriptors after the first are never looked at: two factories
    whose model-selection mappings start with the same descriptor return the
    same list, or fail with the same exception. *)
Theorem get_initialised_model_list_ignores_later_descriptors
    (self1 self2 : ModelFactory) (serial : string) (descriptor : yaml)
    (rest1 rest2 : list (string * yaml)) :
  models_initialisation_config self1 = YMap ((serial, descriptor) :: rest1) ->
  models_initialisation_config self2 = YMap ((serial, descriptor) :: rest2) ->
  match get_initialised_model_list self1, get_initialised_model_list self2 with
  | Ok (r1, _), Ok (r2, _) =>
      r1 = r2 /\ exists detail, r1 = Some [detail]
  | Raise e1, Raise e2 => e1 = e2
  | _, _ => False
  end.
Proof.
  intros Hsel1 Hsel2.
  rewrite (get_initialised_model_list_unfold _ _ _ _ Hsel1),
          (get_initialised_model_list_unfold _ _ _ _ Hsel2).
  destruct (initialise_detail serial descriptor) as [detail | e]; [ | reflexivity].
  split; [reflexivity | now exists detail].
Qed.

(** X8: a call that returns leaves the configuration and the search results
    of the factory as they were and changes at most the stored list, which is
    then the list it returned. *)
Theorem get_initialised_model_list_frame (self self' : ModelFactory)
    (r : option (list InitialisedModelDetail.t)) :
  get_initialised_model_list self = Ok (r, self') ->
  config self' = config self
  /\ models_initialisation_config self' = models_initialisation_config self
  /\ grid_search_cv_module self' = grid_search_cv_module self
  /\ grid_search_class_name self' = grid_search_class_name self
  /\ grid_search_property_data self' = grid_search_property_data self
  /\ grid_searched_best_model_list self' = grid_searched_best_model_list self
  /\ initialised_model_list self'
     = match r with
       | Some l => Some l
       | None => initialised_model_list self
       end.
Proof.
  intros Hr. apply get_initialised_model_list_cases in Hr.
  destruct Hr as [(_ & -> & ->) | (k & d & rest & detail & _ & _ & -> & ->)];
    repeat split.
Qed.

(** X10: every entry that is returned stems from a descriptor of the
    configuration: its serial number is the key of the descriptor, its name
    is the module and the class of the descriptor joined by a dot, its grid
    is the descriptor's [search_param_grid], and without [params] its model
    is the instance as constructed. *)
Theorem get_initialised_model_list_entries (self self' : ModelFactory)
    (l : list InitialisedModelDetail.t) :
  get_initialised_model_list self = Ok (Some l, self') ->
  Forall (fun detail =>
            exists descriptor m c ref model,
              getitem (models_initialisation_config self)
                      (InitialisedModelDetail.model_serial_number detail)
                = Ok descriptor
              /\ getitem descriptor MODULE_KEY = Ok (YStr m)
              /\ getitem descriptor CLASS_KEY = Ok (YStr c)
              /\ InitialisedModelDetail.model_name detail = (m ++ "." ++ c)%string
              /\ getitem descriptor SEARCH_PARAM_GRID_KEY
                 = Ok (InitialisedModelDetail.param_grid_search detail)
              /\ class_for_name (YStr m) (YStr c) = Ok ref
              /\ construct ref = Ok model
              /\ (contains descriptor PARAM_KEY = false ->
                  InitialisedModelDetail.model detail = model))
         l.
Proof.
  intros Hr. apply get_initialised_model_list_cases in Hr.
  destruct Hr as [(_ & Hnone & _) | (k & d & rest & detail & Hsel & Hd & Hl & _)];
    [discriminate | ].
  inversion Hl; subst l. constructor; [ | constructor].
  unfold initialise_detail, bind in Hd.
  destruct (getitem d MODULE_KEY) as [mn | ] eqn:Hm; [ | discriminate].
  destruct (getitem d CLASS_KEY) as [cn | ] eqn:Hc; [ | discriminate].
  destruct (class_for_name mn cn) as [ref | ] eqn:Href; [ | discriminate].
  destruct (construct ref) as [model | ] eqn:Hmodel; [ | discriminate].
  assert (Hnames : exists m c, mn = YStr m /\ cn = YStr c).
  { unfold class_for_name, try_except, bind in Href.
    destruct mn as [ | | | | m | | ]; try discriminate.
    destruct (import_module m); [ | discriminate].
    destruct cn as [ | | | | c | | ]; try discriminate. eauto. }
  destruct Hnames as (m & c & -> & ->).
  assert (Hgrid : forall model',
             match getitem d SEARCH_PARAM_GRID_KEY with
             | Ok g => Ok (InitialisedModelDetail.mk _ k model' g
                             (format (YStr m) ++ "." ++ format (YStr c))%string)
             | Raise e => Raise e
             end = Ok detail ->
             InitialisedModelDetail.model_serial_number detail = k
             /\ InitialisedModelDetail.model_name detail = (m ++ "." ++ c)%string
             /\ getitem d SEARCH_PARAM_GRID_KEY
                = Ok (InitialisedModelDetail.param_grid_search detail)
             /\ InitialisedModelDetail.model detail = model').
  { intros model'. destruct (getitem d SEARCH_PARAM_GRID_KEY); [ | discriminate].
    intros Hk; inversion Hk; subst; simpl. auto. }
  exists d, m, c, ref, model.
  destruct (contains d PARAM_KEY) eqn:Hparams.
  - destruct (getitem d PARAM_KEY) as [p | ]; [ | discriminate].
    destruct (dict p) as [pd | ]; [ | discriminate].
    destruct (update_property_of_class model pd) as [model' | ]; [ | discriminate].
    destruct (Hgrid model' Hd) as (Hk & Hname & Hg & _).
    rewrite Hk, Hsel; simpl. rewrite String.eqb_refl.
    repeat split; auto. discriminate.
  - destruct (Hgrid model Hd) as (Hk & Hname & Hg & Hmod).
    rewrite Hk, Hsel; simpl. rewrite String.eqb_refl.
    repeat split; auto.
Qed.

End InitialisationFacts.

(** ** The search and the pipeline *)

Section SearchFacts.
Context `{Toolkit}.

(** X11: a search result carries the serial number and the model of the
    initialised model it was run for, and the best estimator, parameters and
    score of the search routine that was built for that model and its grid,
    given the grid-search properties and fitted. *)
Theorem execute_grid_search_operation_result (self : ModelFactory)
    (initialized_model : InitialisedModelDetail.t)
    (X : features) (y : target) (r : GridSearchedBestModel.t) :
  execute_grid_search_operation self initialized_model X y = Ok r ->
  GridSearchedBestModel.model_serial_number r
    = InitialisedModelDetail.model_serial_number initialized_model
  /\ GridSearchedBestModel.model r = InitialisedModelDetail.model initialized_model
  /\ exists ref built configured fitted,
       class_for_name (grid_search_cv_module self) (grid_search_class_name self)
         = Ok ref
       /\ construct_search ref (InitialisedModelDetail.model initialized_model)
            (InitialisedModelDetail.param_grid_search initialized_model) = Ok built
       /\ update_property_of_class built (grid_search_property_data self)
            = Ok configured
       /\ fit configured X y = Ok fitted
       /\ best_estimator_ fitted = Ok (GridSearchedBestModel.best_model r)
       /\ best_params_ fitted = Ok (GridSearchedBestModel.best_parameters r)
       /\ best_score_ fitted = Ok (GridSearchedBestModel.best_score r).
Proof.
  unfold execute_grid_search_operation, try_except, bind.
  destruct (class_for_name _ _) as [ref | ] eqn:Href; [ | discriminate].
  destruct (construct_search ref _ _) as [built | ] eqn:Hbuilt; [ | discriminate].
  destruct (update_property_of_class built _) as [configured | ] eqn:Hconf;
    [ | discriminate].
  destruct (fit configured X y) as [fitted | ] eqn:Hfit; [ | discriminate].
  destruct (best_estimator_ fitted) as [be | ] eqn:Hbe; [ | discriminate].
  destruct (best_params_ fitted) as [bp | ] eqn:Hbp; [ | discriminate].
  destruct (best_score_ fitted) as [bs | ] eqn:Hbs; [ | discriminate].
  intros Hr; inversion Hr; subst; simpl. repeat split.
  exists ref, built, configured, fitted. repeat split; assumption.
Qed.

(** The loop of [initiate_best_parameter_search_for_initialised_models]. *)
Lemma search_loop_appends_None (self : ModelFactory)
    (l : list InitialisedModelDetail.t) (X : features) (y : target)
    (found results : list (option GridSearchedBestModel.t)) (self' : ModelFactory) :
  for_in (R := Empty_set)
    (fun initialised_model '(found, self) =>
       grid_searched_best_model <~
         initiate_best_parameter_search_for_initialised_model
           self initialised_model X y ;;
       let found := found ++ [grid_searched_best_model] in
       Next (found, set_grid_searched_best_model_list self found))
    l (found, set_grid_searched_best_model_list self found)
  = Next (results, self') ->
  results = found ++ repeat None (List.length l)
  /\ self' = set_grid_searched_best_model_list self results.
Proof.
  revert found; induction l as [ | m l IH]; intros found; cbn [for_in].
  - intros Hr; inversion Hr; subst. now rewrite app_nil_r.
  - destruct (initiate_best_parameter_search_for_initialised_model
                (set_grid_searched_best_model_list self found) m X y)
      as [r | e] eqn:Hrun; cbn [cbind]; [ | discriminate].
    apply search_result_dropped in Hrun; subst r.
    change (set_grid_searched_best_model_list
              (set_grid_searched_best_model_list self found) (found ++ [None]))
      with (set_grid_searched_best_model_list self (found ++ [None])).
    intros Hr; apply IH in Hr. destruct Hr as [-> ->].
    now rewrite <- app_assoc.
Qed.

(** X12: when the search over a list of models returns, it returns one
    [None] per model and no search result, and the factory holds that list;
    nothing else of the factory has changed. *)
Theorem search_over_models_returns_Nones (self self' : ModelFactory)
    (initialised_model_list : list InitialisedModelDetail.t)
    (X : features) (y : target)
    (results : list (option GridSearchedBestModel.t)) :
  initiate_best_parameter_search_for_initialised_models
    self initialised_model_list X y = Ok (results, self') ->
  results = repeat None (List.length initialised_model_list)
  /\ self' = set_grid_searched_best_model_list self results.
Proof.
  unfold initiate_best_parameter_search_for_initialised_models.
  destruct (for_in _ initialised_model_list _) as [[res s] | [] | e] eqn:Hloop;
    [ | discriminate].
  intros Hr; inversion Hr; subst.
  now apply search_loop_appends_None in Hloop.
Qed.

(** X13: the pipeline never returns: however the toolkit behaves,
    [get_best_model] ends in a [HousingException]. *)
Theorem get_best_model_always_raises (self : ModelFactory)
    (X : features) (y : target) (base_accuracy : float) :
  exists cause,
    get_best_model self X y base_accuracy = Raise (HousingException cause).
Proof.
  unfold get_best_model, try_except, bind.
  destruct (get_initialised_model_list self) as [[[l | ] self1] | e] eqn:Hinit;
    eauto.
  destruct (get_initialised_model_list_single _ _ _ Hinit) as [Hlen _].
  destruct (initiate_best_parameter_search_for_initialised_models self1 l X y)
    as [[results self2] | e] eqn:Hsearch; eauto.
  unfold initiate_best_parameter_search_for_initialised_models in Hsearch.
  destruct (for_in _ l _) as [[res s] | [] | e] eqn:Hloop; [ | discriminate].
  inversion Hsearch; subst.
  apply search_loop_appends_None in Hloop. destruct Hloop as [-> _].
  rewrite Hlen; simpl. eauto.
Qed.

(** The search itself does not depend on the results stored so far. *)
Lemma execute_grid_search_operation_stored (self : ModelFactory)
    (found : list (option GridSearchedBestModel.t))
    (m : InitialisedModelDetail.t) (X : features) (y : target) :
  execute_grid_search_operation (set_grid_searched_best_model_list self found) m X y
  = execute_grid_search_operation self m X y.
Proof. reflexivity. Qed.

Lemma search_loop_completes_iff (self : ModelFactory)
    (l : list InitialisedModelDetail.t) (X : features) (y : target)
    (found : list (option GridSearchedBestModel.t)) :
  (exists s,
     for_in (R := Empty_set)
       (fun initialised_model '(found, self) =>
          grid_searched_best_model <~
            initiate_best_parameter_search_for_initialised_model
              self initialised_model X y ;;
          let found := found ++ [grid_searched_best_model] in
          Next (found, set_grid_searched_best_model_list self found))
       l (found, set_grid_searched_best_model_list self found) = Next s)
  <-> Forall (fun m => exists r, execute_grid_search_operation self m X y = Ok r) l.
Proof.
  revert found; induction l as [ | m l IH]; intros found; cbn [for_in].
  - split; [constructor | eauto].
  - unfold initiate_best_parameter_search_for_initialised_model at 1.
    rewrite execute_grid_search_operation_stored.
    destruct (execute_grid_search_operation self m X y) as [r | e] eqn:Hrun;
      cbn [bind try_except cbind].
    + change (set_grid_searched_best_model_list
                (set_grid_searched_best_model_list self found) (found ++ [None]))
        with (set_grid_searched_best_model_list self (found ++ [None])).
      rewrite IH. split.
      * intros Hl; constructor; eauto.
      * intros Hl; now inversion Hl.
    + split.
      * intros [s Hs]; discriminate.
      * intros Hl; inversion Hl as [ | ? ? [r Hr] _]; subst. congruence.
Qed.

(** X14: the search over a list of models returns exactly when the search
    succeeds for every model of the list; one failing model makes the whole
    call fail. *)
Theorem search_over_models_returns_iff (self : ModelFactory)
    (initialised_model_list : list InitialisedModelDetail.t)
    (X : features) (y : target) :
  (exists r, initiate_best_parameter_search_for_initialised_models
               self initialised_model_list X y = Ok r)
  <-> Forall (fun m => exists r, execute_grid_search_operation self m X y = Ok r)
             initialised_model_list.
Proof.
  rewrite <- (search_loop_completes_iff self initialised_model_list X y []).
  unfold initiate_best_parameter_search_for_initialised_models.
  destruct (for_in _ initialised_model_list _) as [s | [] | e]; split;
    intros [r Hr]; try discriminate; eauto.
Qed.

End SearchFacts.

(** ** The regression-model comparison, continued *)

(** The combined accuracy of a NaN accuracy is NaN, and no floor accepts it. *)
Lemma model_accuracy_NaN (a b : float) :
  a = S754_nan \/ b = S754_nan -> model_accuracy a b = Ok S754_nan.
Proof.
  intros [-> | ->]; unfold model_accuracy, PyFloat.mul, PyFloat.add.
  - reflexivity.
  - destruct a; reflexivity.
Qed.

(** X16: a NaN accuracy raises nothing and is never accepted: the combined
    accuracy is NaN, and the test of the loop is false on it under every
    floor. *)
Theorem NaN_accuracy_is_not_accepted (train_acc test_acc base_accuracy : float) :
  train_acc = S754_nan \/ test_acc = S754_nan ->
  model_accuracy train_acc test_acc = Ok S754_nan
  /\ acceptable base_accuracy S754_nan
       (diff_test_train_acc train_acc test_acc) = false.
Proof.
  intros Hnan. split; [now apply model_accuracy_NaN | ].
  unfold acceptable, PyFloat.ge. now destruct base_accuracy.
Qed.

(** The witness of [NaN_accuracy_is_not_accepted]: train accuracy NaN, test
    accuracy 0.5, floor 0.6. *)
Lemma NaN_accuracy_is_not_accepted_witness :
  model_accuracy S754_nan (PyFloat.lit 5 1) = Ok S754_nan
  /\ acceptable (PyFloat.lit 6 1) S754_nan
       (diff_test_train_acc S754_nan (PyFloat.lit 5 1)) = false.
Proof.
  apply (NaN_accuracy_is_not_accepted S754_nan (PyFloat.lit 5 1) (PyFloat.lit 6 1)).
  left; reflexivity.
Defined.

(** X17: computing the combined accuracy fails exactly when the sum of the
    two accuracies compares equal to zero, and then with a division by
    zero. *)
Theorem model_accuracy_fails_iff (train_acc test_acc : float) :
  ((exists e, model_accuracy train_acc test_acc = Raise e)
   <-> PyFloat.eqb (PyFloat.add train_acc test_acc) PyFloat.zero = true)
  /\ (forall e, model_accuracy train_acc test_acc = Raise e -> e = ZeroDivisionError).
Proof.
  unfold model_accuracy, truediv.
  destruct (PyFloat.add train_acc test_acc) as [s | s | | s m e]; simpl.
  - split; [split; eauto | intros e He; now inversion He].
  - split; [split; [intros [e He]; discriminate | destruct s; discriminate]
           | discriminate].
  - split; [split; [intros [e He]; discriminate | discriminate] | discriminate].
  - split; [split; [intros [e' He]; discriminate | destruct s; discriminate]
           | discriminate].
Qed.

(** X18: accuracies of equal size and opposite sign, finite or zero, make the
    combined accuracy fail with a division by zero. *)
Theorem model_accuracy_opposite (x : float) :
  PyFloat.is_finite x = true ->
  model_accuracy x (PyFloat.neg x) = Raise ZeroDivisionError.
Proof.
  intros Hfin; unfold model_accuracy.
  assert (Hzero : exists s, PyFloat.add x (PyFloat.neg x) = S754_zero s).
  { destruct x as [s | s | | s m e]; try discriminate.
    - destruct s; simpl; eauto.
    - exists false. unfold PyFloat.add, PyFloat.neg, SFadd, SFopp.
      rewrite Z.min_id. unfold shl_align. rewrite Z.sub_diag. cbn [fst].
      assert (Hsum : (cond_Zopp s (Z.pos m) + cond_Zopp (negb s) (Z.pos m) = 0)%Z)
        by (destruct s; simpl; apply Z.pos_sub_diag).
      now rewrite Hsum. }
  destruct Hzero as [s Hs]. now rewrite Hs.
Qed.

(** The witness of [model_accuracy_opposite]: 0.5 and -0.5. *)
Lemma model_accuracy_opposite_witness :
  model_accuracy (PyFloat.lit 5 1) (PyFloat.neg (PyFloat.lit 5 1))
  = Raise ZeroDivisionError.
Proof.
  apply (model_accuracy_opposite (PyFloat.lit 5 1)). reflexivity.
Defined.

(** ** Train and test accuracy are treated alike *)

Lemma mul_comm (a b : float) : PyFloat.mul a b = PyFloat.mul b a.
Proof.
  unfold PyFloat.mul.
  destruct a as [sa | sa | | sa ma ea], b as [sb | sb | | sb mb eb]; simpl;
    try reflexivity; try (now rewrite xorb_comm).
  now rewrite xorb_comm, Pos.mul_comm, Z.add_comm.
Qed.

Lemma add_comm (a b : float) : PyFloat.add a b = PyFloat.add b a.
Proof.
  unfold PyFloat.add.
  destruct a as [sa | sa | | sa ma ea], b as [sb | sb | | sb mb eb]; simpl;
    try reflexivity; try (destruct sa, sb; reflexivity).
  now rewrite (Z.min_comm ea eb), Z.add_comm.
Qed.

Lemma abs_binary_round_aux (s : bool) (mx ex : Z) (lx : location) :
  SFabs (binary_round_aux PyFloat.prec PyFloat.emax s mx ex lx)
  = SFabs (binary_round_aux PyFloat.prec PyFloat.emax false mx ex lx).
Proof.
  unfold binary_round_aux.
  destruct (shr_fexp PyFloat.prec PyFloat.emax mx ex lx) as [mrs' e'].
  destruct (shr_fexp PyFloat.prec PyFloat.emax _ e' loc_Exact) as [mrs'' e''].
  destruct (shr_m mrs''); try reflexivity.
  now destruct (e'' <=? PyFloat.emax - PyFloat.prec)%Z.
Qed.

Lemma abs_binary_normalize_opp (m e : Z) :
  SFabs (binary_normalize PyFloat.prec PyFloat.emax (- m) e false)
  = SFabs (binary_normalize PyFloat.prec PyFloat.emax m e false).
Proof.
  destruct m as [ | p | p]; simpl; try reflexivity; unfold binary_round;
    destruct (shl_align _ _ _) as [mz ez];
    now rewrite (abs_binary_round_aux true).
Qed.

Lemma abs_sub_comm (a b : float) :
  PyFloat.abs (PyFloat.sub a b) = PyFloat.abs (PyFloat.sub b a).
Proof.
  unfold PyFloat.abs, PyFloat.sub.
  destruct a as [sa | sa | | sa ma ea], b as [sb | sb | | sb mb eb]; simpl;
    try reflexivity; try (destruct sa, sb; reflexivity).
  rewrite (Z.min_comm eb ea).
  rewrite <- abs_binary_normalize_opp. f_equal. f_equal. lia.
Qed.

(** X19: the comparison treats the two accuracies alike: swapping train and
    test accuracy changes neither the combined accuracy nor their
    difference, so a model is accepted either way or not at all. *)
Theorem acceptance_is_symmetric (train_acc test_acc base_accuracy : float) :
  model_accuracy train_acc test_acc = model_accuracy test_acc train_acc
  /\ diff_test_train_acc train_acc test_acc = diff_test_train_acc test_acc train_acc
  /\ (forall accuracy,
        acceptable base_accuracy accuracy (diff_test_train_acc train_acc test_acc)
        = acceptable base_accuracy accuracy (diff_test_train_acc test_acc train_acc)).
Proof.
  assert (Hdiff : diff_test_train_acc train_acc test_acc
                  = diff_test_train_acc test_acc train_acc)
    by apply abs_sub_comm.
  repeat split.
  - unfold model_accuracy.
    now rewrite (mul_comm train_acc test_acc), (add_comm train_acc test_acc).
  - exact Hdiff.
  - intros accuracy; now rewrite Hdiff.
Qed.

(** ** Failures and property assignment *)

Section FailureFacts.
Context `{Toolkit}.

(** X21: assigning the entries of a mapping is assigning them one after the
    other, in the order of the mapping: the properties of [items1 ++ items2]
    are those of [items1] followed by those of [items2], and the first
    assignment that fails ends the call. *)
Theorem update_property_of_class_app (instance_ref : obj)
    (items1 items2 : list (string * yaml)) :
  update_property_of_class instance_ref (YMap (items1 ++ items2))
  = (configured <- update_property_of_class instance_ref (YMap items1) ;;
     update_property_of_class configured (YMap items2)).
Proof.
  unfold update_property_of_class.
  revert instance_ref; induction items1 as [ | [key value] items1 IH];
    intros instance_ref; cbn [app for_in].
  - reflexivity.
  - destruct (setattr instance_ref key value) as [o | e]; cbn [cbind].
    + apply IH.
    + reflexivity.
Qed.

(** X22: after [get_initialised_model_list] has returned a list,
    [get_model_detail] finds in it the entry of the first serial number of
    the configuration and of no other serial number. *)
Theorem get_model_detail_after_initialisation (self self' : ModelFactory)
    (l : list InitialisedModelDetail.t) :
  get_initialised_model_list self = Ok (Some l, self') ->
  exists serial rest detail,
    keys (models_initialisation_config self) = Ok (serial :: rest)
    /\ get_model_detail l serial = Ok (Some detail)
    /\ InitialisedModelDetail.model_serial_number detail = serial
    /\ (forall other, String.eqb serial other = false ->
                      get_model_detail l other = Ok None).
Proof.
  intros Hr. apply get_initialised_model_list_cases in Hr.
  destruct Hr as [(_ & Hnone & _) | (k & d & rest & detail & Hsel & Hd & Hl & _)];
    [discriminate | ].
  inversion Hl; subst l.
  assert (Hserial : InitialisedModelDetail.model_serial_number detail = k).
  { unfold initialise_detail, bind in Hd.
    repeat match type of Hd with
           | match ?c with Ok _ => _ | Raise _ => _ end = _ =>
               destruct c; try discriminate
           | (if ?b then _ else _) = _ => destruct b
           end; inversion Hd; reflexivity. }
  exists k, (map fst rest), detail. rewrite Hsel. split; [reflexivity | ].
  unfold get_model_detail; cbn [for_in]. rewrite Hserial, String.eqb_refl.
  repeat split. intros other Hother. now rewrite Hother.
Qed.

End FailureFacts.

(** ** Witnesses on the small toolkit *)

Example factory_for_is_built (selection : list (string * yaml)) :
  ModelFactory_init (Demo.config_with selection) = Ok (Demo.factory_for selection).
Proof. reflexivity. Qed.

(** The witness of [get_initialised_model_list_ignores_later_descriptors]:
    the two descriptors against the first of them alone. *)
Lemma get_initialised_model_list_ignores_later_descriptors_witness :
  match get_initialised_model_list (Demo.factory_for Demo.selection2),
        get_initialised_model_list
          (Demo.factory_for
             [("module_0", Demo.descriptor "sklearn.linear_model" "LinearRegression")])
  with
  | Ok (r1, _), Ok (r2, _) => r1 = r2 /\ exists detail, r1 = Some [detail]
  | Raise e1, Raise e2 => e1 = e2
  | _, _ => False
  end.
Proof.
  apply (get_initialised_model_list_ignores_later_descriptors
           (Demo.factory_for Demo.selection2)
           (Demo.factory_for
              [("module_0", Demo.descriptor "sklearn.linear_model" "LinearRegression")])
           "module_0" (Demo.descriptor "sklearn.linear_model" "LinearRegression")
           [("module_1", Demo.descriptor "sklearn.tree" "DecisionTreeRegressor")] []);
    reflexivity.
Defined.

(** The witness of [get_initialised_model_list_frame]. *)
Lemma get_initialised_model_list_frame_witness :
  get_initialised_model_list (Demo.factory_for Demo.selection2)
    = Ok (Some [Demo.linear_detail],
          set_initialised_model_list (Demo.factory_for Demo.selection2)
            [Demo.linear_detail])
  /\ initialised_model_list
       (set_initialised_model_list (Demo.factory_for Demo.selection2)
          [Demo.linear_detail])
     = Some [Demo.linear_detail].
Proof.
  split; [reflexivity | ].
  apply (get_initialised_model_list_frame
           (Demo.factory_for Demo.selection2)
           (set_initialised_model_list (Demo.factory_for Demo.selection2)
              [Demo.linear_detail])
           (Some [Demo.linear_detail])).
  reflexivity.
Defined.

(** The witness of [get_initialised_model_list_entries]: the entry of
    [module_0] is named after its module and class. *)
Lemma get_initialised_model_list_entries_witness :
  exists descriptor m c,
    getitem (YMap Demo.selection2) "module_0" = Ok descriptor
    /\ getitem descriptor MODULE_KEY = Ok (YStr m)
    /\ getitem descriptor CLASS_KEY = Ok (YStr c)
    /\ InitialisedModelDetail.model_name Demo.linear_detail = (m ++ "." ++ c)%string.
Proof.
  pose proof (get_initialised_model_list_entries
                (Demo.factory_for Demo.selection2)
                (set_initialised_model_list (Demo.factory_for Demo.selection2)
                   [Demo.linear_detail])
                [Demo.linear_detail] eq_refl) as Hall.
  inversion Hall as [ | ? ? (d & m & c & _ & _ & Hd & Hm & Hc & Hname & _) _].
  exists d, m, c. repeat split; assumption.
Defined.

(** The witness of [get_model_detail_after_initialisation]. *)
Lemma get_model_detail_after_initialisation_witness :
  exists serial rest detail,
    keys (YMap Demo.selection2) = Ok (serial :: rest)
    /\ get_model_detail [Demo.linear_detail] serial = Ok (Some detail)
    /\ InitialisedModelDetail.model_serial_number detail = serial
    /\ (forall other, String.eqb serial other = false ->
                      get_model_detail [Demo.linear_detail] other = Ok None).
Proof.
  apply (get_model_detail_after_initialisation
           (Demo.factory_for Demo.selection2)
           (set_initialised_model_list (Demo.factory_for Demo.selection2)
              [Demo.linear_detail])).
  reflexivity.
Defined.

(** The witness of [execute_grid_search_operation_result]: the search for
    the entry of [module_0]. *)
Lemma execute_grid_search_operation_result_witness :
  exists r,
    execute_grid_search_operation (Demo.factory_for Demo.selection2)
      Demo.linear_detail true tt = Ok r
    /\ GridSearchedBestModel.model_serial_number r = "module_0"
    /\ GridSearchedBestModel.model r = InitialisedModelDetail.model Demo.linear_detail.
Proof.
  eexists. split; [reflexivity | ].
  split;
    apply (execute_grid_search_operation_result
             (Demo.factory_for Demo.selection2) Demo.linear_detail true tt);
    reflexivity.
Defined.

(** The witness of [search_over_models_returns_Nones]: two models, two
    [None]. *)
Lemma search_over_models_returns_Nones_witness :
  exists results self',
    initiate_best_parameter_search_for_initialised_models
      (Demo.factory_for Demo.selection2)
      [Demo.linear_detail; Demo.linear_detail] true tt = Ok (results, self')
    /\ results = repeat None 2
    /\ grid_searched_best_model_list self' = Some [None; None].
Proof.
  do 2 eexists. split; [reflexivity | ].
  destruct (search_over_models_returns_Nones
              (Demo.factory_for Demo.selection2)
              (set_grid_searched_best_model_list (Demo.factory_for Demo.selection2)
                 [None; None])
              [Demo.linear_detail; Demo.linear_detail] true tt [None; None]
              eq_refl) as [Hresults Hself].
  split; [exact Hresults | reflexivity].
Defined.

(** ** When the initialisation and the search go through *)

Section OutcomeFacts.
Context `{Toolkit}.

(** X24: when the initialisation and the search both go through,
    [get_best_model] fails on the first search result, which is [None] and
    has no [best_score]. *)
Theorem get_best_model_fails_on_None (self self1 self2 : ModelFactory)
    (l : list InitialisedModelDetail.t)
    (results : list (option GridSearchedBestModel.t))
    (X : features) (y : target) (base_accuracy : float) :
  get_initialised_model_list self = Ok (Some l, self1) ->
  initiate_best_parameter_search_for_initialised_models self1 l X y
    = Ok (results, self2) ->
  get_best_model self X y base_accuracy
  = Raise (HousingException (HousingException (AttributeError "best_score"))).
Proof.
  intros Hinit Hsearch. unfold get_best_model, try_except, bind.
  rewrite Hinit, Hsearch.
  destruct (get_initialised_model_list_single _ _ _ Hinit) as [Hlen _].
  unfold initiate_best_parameter_search_for_initialised_models in Hsearch.
  destruct (for_in _ l _) as [[res s] | [] | e] eqn:Hloop; [ | discriminate].
  inversion Hsearch; subst.
  apply search_loop_appends_None in Hloop. destruct Hloop as [-> _].
  rewrite Hlen. reflexivity.
Qed.

End OutcomeFacts.

(** The witness of [get_best_model_fails_on_None]: the two-descriptor
    configuration. *)
Lemma get_best_model_fails_on_None_witness :
  get_best_model (Demo.factory_for Demo.selection2) true tt (PyFloat.lit 6 1)
  = Raise (HousingException (HousingException (AttributeError "best_score"))).
Proof.
  apply (get_best_model_fails_on_None
           (Demo.factory_for Demo.selection2)
           (set_initialised_model_list (Demo.factory_for Demo.selection2)
              [Demo.linear_detail])
           (set_grid_searched_best_model_list
              (set_initialised_model_list (Demo.factory_for Demo.selection2)
                 [Demo.linear_detail]) [None])
           [Demo.linear_detail] [None] true tt (PyFloat.lit 6 1));
    reflexivity.
Defined.
